(** * Channel and BlendingInformation (src/channel.js)

    A shallow embedding of the two classes of [src/channel.js] and of the
    fragment of JavaScript they are written in: values, a heap of arrays and
    plain objects, exceptions, property reads and writes, [Array.isArray],
    [==]/[===] and the array spread [[...x]].  The constructors are
    transcribed statement by statement in a state-and-exception monad.

    The values are [undefined], [null], booleans, numbers, strings and
    references to arrays and to plain objects.  Symbols, functions, typed
    arrays, proxies, accessors on the options record, sparse arrays and
    objects with an iterator of their own are outside the model. *)

From Stdlib Require Import QArith.
From stdpp Require Import base option list strings gmap.

Set Default Proof Using "Type".

(** ** Values *)

(** A JavaScript number.  The module never computes with numbers: it stores
    them and compares a [length] with a literal.  A finite double is
    carried as the rational it denotes; a rational that no double denotes
    is a value the program never receives. *)
Inductive number :=
  | NaN
  | Infinity (negative : bool)
  | NegZero
  | Finite (q : Q).

(** [x === y] on numbers: [NaN] equals nothing, [-0] equals [+0]. *)
Definition number_equals (x y : number) : bool :=
  match x, y with
  | Infinity a, Infinity b => bool_decide (a = b)
  | NegZero, NegZero => true
  | NegZero, Finite q | Finite q, NegZero => Qeq_bool q 0
  | Finite p, Finite q => Qeq_bool p q
  | _, _ => false
  end.

Definition number_of_nat (n : nat) : number := Finite (inject_Z (Z.of_nat n)).

(** A JavaScript string is a sequence of 16-bit code units. *)
Abbreviation code_unit := N.
Abbreviation jsstring := (list code_unit).

Abbreviation loc := nat.

Inductive value :=
  | VUndefined
  | VNull
  | VBool (b : bool)
  | VNumber (n : number)
  | VString (s : jsstring)
  | VRef (l : loc).

(** An ASCII literal as a string value. *)
Definition str (s : string) : value :=
  VString (Ascii.N_of_ascii <$> String.list_ascii_of_string s).

Definition num (n : nat) : value := VNumber (number_of_nat n).

(** Heap objects: arrays (dense) and plain objects with named properties.
    Class instances are plain objects; the symbol-keyed slot of [Channel] is
    a property under a reserved name.  The heap is the list of the objects
    allocated so far, a location is an index into it, and a new object goes
    to the end. *)
Inductive object :=
  | OArray (elements : list value)
  | OPlain (props : gmap string value).

Abbreviation heap := (list object).

(** ** Exceptions and the evaluation monad *)

Inductive exn :=
  | Error (message : string)
  | TypeError.

Inductive outcome (A : Type) :=
  | Return (a : A)
  | Throw (e : exn).
Arguments Return {A} a.
Arguments Throw {A} e.

Definition js (A : Type) : Type := heap → outcome A * heap.

Definition ret {A} (a : A) : js A := λ h, (Return a, h).

Definition bind {A B} (m : js A) (k : A → js B) : js B := λ h,
  match m h with
  | (Return a, h') => k a h'
  | (Throw e, h') => (Throw e, h')
  end.

Definition throw {A} (e : exn) : js A := λ h, (Throw e, h).

Declare Scope js_scope.
Delimit Scope js_scope with js.
Notation "x <- m ;; k" := (bind m (λ x, k))
  (at level 100, m at next level, right associativity) : js_scope.
Notation "m ;; k" := (bind m (λ _, k))
  (at level 100, right associativity) : js_scope.
Local Open Scope js_scope.

(** [if (c) { throw e }] *)
Definition throw_if (c : bool) (e : exn) : js unit :=
  if c then throw e else ret ().

(** ** Operators *)

(** [x == null]: true of [null] and [undefined] only. *)
Definition loose_equals_null (v : value) : bool :=
  match v with
  | VUndefined | VNull => true
  | _ => false
  end.

(** [x === y] *)
Definition strict_equals (x y : value) : bool :=
  match x, y with
  | VUndefined, VUndefined => true
  | VNull, VNull => true
  | VBool a, VBool b => bool_decide (a = b)
  | VNumber a, VNumber b => number_equals a b
  | VString a, VString b => bool_decide (a = b)
  | VRef a, VRef b => bool_decide (a = b)
  | _, _ => false
  end.

Definition strict_not_equals (x y : value) : bool := negb (strict_equals x y).

(** Whether [v] refers to an array of the heap [h]. *)
Definition is_array (h : heap) (v : value) : bool :=
  match v with
  | VRef l =>
      match h !! l with
      | Some (OArray _) => true
      | _ => false
      end
  | _ => false
  end.

(** [Array.isArray(x)] *)
Definition Array_isArray (v : value) : js bool := λ h,
  (Return (is_array h v), h).

(** The value of [v.key] in the heap [h], [None] where the read throws.
    Reading from [null] or [undefined] throws; numbers and booleans have
    none of the names used here; a string has [length]; an array has
    [length]; a plain object has its own properties. *)
Definition read_prop (h : heap) (v : value) (key : string) : option value :=
  match v with
  | VUndefined | VNull => None
  | VBool _ | VNumber _ => Some VUndefined
  | VString s =>
      Some (if decide (key = "length") then num (length s) else VUndefined)
  | VRef l =>
      match h !! l with
      | Some (OArray xs) =>
          Some (if decide (key = "length") then num (length xs) else VUndefined)
      | Some (OPlain props) => Some (default VUndefined (props !! key))
      | None => Some VUndefined
      end
  end.

(** [x.key] *)
Definition get_prop (v : value) (key : string) : js value := λ h,
  match read_prop h v key with
  | Some x => (Return x, h)
  | None => (Throw TypeError, h)
  end.

(** [x.key = v].  The module only assigns to plain objects; any other
    receiver is reported as a [TypeError]. *)
Definition set_prop (x : value) (key : string) (v : value) : js unit := λ h,
  match x with
  | VRef l =>
      match h !! l with
      | Some (OPlain props) => (Return (), <[l := OPlain (<[key := v]> props)]> h)
      | _ => (Throw TypeError, h)
      end
  | _ => (Throw TypeError, h)
  end.

(** Allocation of a new object at the next free location. *)
Definition alloc (o : object) : js value := λ h,
  (Return (VRef (length h)), h ++ [o]).

(** The string iterator yields code points: a high surrogate followed by a
    low surrogate is one element. *)
Definition is_high_surrogate (c : code_unit) : bool :=
  ((0xD800 <=? c) && (c <=? 0xDBFF))%N.
Definition is_low_surrogate (c : code_unit) : bool :=
  ((0xDC00 <=? c) && (c <=? 0xDFFF))%N.

Fixpoint code_points (s : jsstring) : list jsstring :=
  match s with
  | [] => []
  | c :: rest =>
      match rest with
      | d :: rest' =>
          if is_high_surrogate c && is_low_surrogate d
          then [c; d] :: code_points rest'
          else [c] :: code_points rest
      | [] => [[c]]
      end
  end.

(** The elements produced by iterating [v] in the heap [h]: arrays and
    strings are iterable, nothing else that is modelled is ([None]). *)
Definition elements_of (h : heap) (v : value) : option (list value) :=
  match v with
  | VString s => Some (VString <$> code_points s)
  | VRef l =>
      match h !! l with
      | Some (OArray xs) => Some xs
      | _ => None
      end
  | _ => None
  end.

Definition iterate (v : value) : js (list value) := λ h,
  match elements_of h v with
  | Some xs => (Return xs, h)
  | None => (Throw TypeError, h)
  end.

(** [[...x]] *)
Definition array_spread (v : value) : js value :=
  xs <- iterate v ;;
  alloc (OArray xs).

(** Destructuring [{ key, ... }] of the options record: a missing key
    binds [undefined]. *)
Definition param (options : gmap string value) (key : string) : value :=
  default VUndefined (options !! key).

(** ** class BlendingInformation *)

Definition BlendingInformation_constructor
    (this : value) (options : gmap string value) : js unit :=
  let opticalPathIdentifier := param options "opticalPathIdentifier" in
  let color := param options "color" in
  let opacity := param options "opacity" in
  let thresholdValues := param options "thresholdValues" in
  let limitValues := param options "limitValues" in
  let visible := param options "visible" in
  set_prop this "opticalPathIdentifier" opticalPathIdentifier ;;

  throw_if (loose_equals_null color) (Error "Color is required.") ;;
  a <- Array_isArray color ;;
  throw_if (negb a) (Error "Color must be provided as an array.") ;;
  n <- get_prop color "length" ;;
  throw_if (strict_not_equals n (num 3))
    (Error "An RGB color triplet must be provided.") ;;
  c <- array_spread color ;;
  set_prop this "color" c ;;

  set_prop this "opacity" opacity ;;

  throw_if (loose_equals_null thresholdValues)
    (Error "Threshold values are required.") ;;
  a <- Array_isArray thresholdValues ;;
  throw_if (negb a) (Error "Threshold values must be provided as an array.") ;;
  n <- get_prop thresholdValues "length" ;;
  throw_if (strict_not_equals n (num 2))
    (Error "Two threshold values must be provided.") ;;
  c <- array_spread thresholdValues ;;
  set_prop this "thresholdValues" c ;;

  throw_if (loose_equals_null limitValues) (Error "Limit values are required.") ;;
  a <- Array_isArray thresholdValues ;;
  throw_if (negb a) (Error "Limit values must be provided as an array.") ;;
  n <- get_prop limitValues "length" ;;
  throw_if (strict_not_equals n (num 2))
    (Error "Two limit values must be provided.") ;;
  c <- array_spread limitValues ;;
  set_prop this "limitValues" c ;;

  set_prop this "visible" visible.

(** [new BlendingInformation(options)]: the instance is allocated, the
    constructor runs on it, and the instance is the value of the expression
    only when the constructor returns. *)
Definition new_BlendingInformation (options : gmap string value) : js value :=
  this <- alloc (OPlain ∅) ;;
  BlendingInformation_constructor this options ;;
  ret this.

(** ** class Channel *)

(** The property name standing for [Symbol('channelAttrs')]. *)
Definition _channelAttrs : string := "@@channelAttrs".

Definition Channel_constructor
    (this : value) (options : gmap string value) : js unit :=
  let opticalPathIdentifier := param options "opticalPathIdentifier" in
  let studyInstanceUID := param options "studyInstanceUID" in
  let seriesInstanceUID := param options "seriesInstanceUID" in
  let sopInstanceUIDs := param options "sopInstanceUIDs" in
  o <- alloc (OPlain ∅) ;;
  set_prop this _channelAttrs o ;;
  throw_if (strict_equals opticalPathIdentifier VUndefined)
    (Error "Optical Path Identifier is required.") ;;
  attrs <- get_prop this _channelAttrs ;;
  set_prop attrs "opticalPathIdentifier" opticalPathIdentifier ;;

  throw_if (strict_equals studyInstanceUID VUndefined)
    (Error "Study Instance UID is required.") ;;
  attrs <- get_prop this _channelAttrs ;;
  set_prop attrs "studyInstanceUID" studyInstanceUID ;;

  throw_if (strict_equals seriesInstanceUID VUndefined)
    (Error "Series Instance UID is required.") ;;
  attrs <- get_prop this _channelAttrs ;;
  set_prop attrs "seriesInstanceUID" seriesInstanceUID ;;

  throw_if (strict_equals sopInstanceUIDs VUndefined)
    (Error "SOP Instance UIDs are required.") ;;
  attrs <- get_prop this _channelAttrs ;;
  set_prop attrs "sopInstanceUIDs" sopInstanceUIDs.

Definition new_Channel (options : gmap string value) : js value :=
  this <- alloc (OPlain ∅) ;;
  Channel_constructor this options ;;
  ret this.

(** The four getters. *)
Definition Channel_opticalPathIdentifier (this : value) : js value :=
  attrs <- get_prop this _channelAttrs ;;
  get_prop attrs "opticalPathIdentifier".

Definition Channel_studyInstanceUID (this : value) : js value :=
  attrs <- get_prop this _channelAttrs ;;
  get_prop attrs "studyInstanceUID".

Definition Channel_seriesInstanceUID (this : value) : js value :=
  attrs <- get_prop this _channelAttrs ;;
  get_prop attrs "seriesInstanceUID".

Definition Channel_sopInstanceUIDs (this : value) : js value :=
  attrs <- get_prop this _channelAttrs ;;
  get_prop attrs "sopInstanceUIDs".

(** ** Vocabulary of the specification *)

(** The two kinds of validation failure.  The source raises a plain
    [Error] in both cases; the kind is read off the message. *)
Inductive error_kind := MissingFieldError | ShapeError.

Definition missing_field_messages : list string :=
  [ "Color is required.";
    "Threshold values are required.";
    "Limit values are required.";
    "Optical Path Identifier is required.";
    "Study Instance UID is required.";
    "Series Instance UID is required.";
    "SOP Instance UIDs are required." ].

Definition shape_messages : list string :=
  [ "Color must be provided as an array.";
    "An RGB color triplet must be provided.";
    "Threshold values must be provided as an array.";
    "Two threshold values must be provided.";
    "Limit values must be provided as an array.";
    "Two limit values must be provided." ].

Definition kind_of_message (m : string) : option error_kind :=
  if bool_decide (m ∈ missing_field_messages) then Some MissingFieldError
  else if bool_decide (m ∈ shape_messages) then Some ShapeError
  else None.

(** The kind of failure of an outcome, if it is a validation failure. *)
Definition failure_kind {A} (r : outcome A) : option error_kind :=
  match r with
  | Throw (Error m) => kind_of_message m
  | _ => None
  end.

(** The exception of an outcome, if any. *)
Definition thrown {A} (r : outcome A) : option exn :=
  match r with
  | Throw e => Some e
  | Return _ => None
  end.

(** A reference is allocated when it points into the heap; other values
    always are.  Values held by a caller are allocated. *)
Definition allocated (h : heap) (v : value) : bool :=
  match v with
  | VRef l => bool_decide (l < length h)
  | _ => true
  end.

(** [v.length === n], false where the read throws. *)
Definition length_is (h : heap) (v : value) (n : nat) : bool :=
  match read_prop h v "length" with
  | Some len => strict_equals len (num n)
  | None => false
  end.

(** [v] is an array of [n] elements. *)
Definition array_of_length (h : heap) (v : value) (n : nat) : bool :=
  is_array h v && bool_decide (length <$> elements_of h v = Some n).

(** The checks of the validation order of BlendingInformation, in the
    order of the specification: each names the field it inspects and the
    message it raises.  The eighth inspects [thresholdValues], as the
    specification records. *)
Inductive check_kind := Presence | IsSequence | HasElements (n : nat).

Record check := MkCheck {
  check_field : string;
  check_what : check_kind;
  check_message : string
}.

Definition blending_checks : list check :=
  [ MkCheck "color" Presence "Color is required.";
    MkCheck "color" IsSequence "Color must be provided as an array.";
    MkCheck "color" (HasElements 3) "An RGB color triplet must be provided.";
    MkCheck "thresholdValues" Presence "Threshold values are required.";
    MkCheck "thresholdValues" IsSequence
      "Threshold values must be provided as an array.";
    MkCheck "thresholdValues" (HasElements 2)
      "Two threshold values must be provided.";
    MkCheck "limitValues" Presence "Limit values are required.";
    MkCheck "thresholdValues" IsSequence
      "Limit values must be provided as an array.";
    MkCheck "limitValues" (HasElements 2) "Two limit values must be provided." ].

(** Whether a check passes on the options in a heap. *)
Definition check_passes (h : heap) (options : gmap string value) (c : check)
    : bool :=
  let v := param options (check_field c) in
  match check_what c with
  | Presence => negb (loose_equals_null v)
  | IsSequence => is_array h v
  | HasElements n => length_is h v n
  end.

(** The message of the first check of the list that fails. *)
Fixpoint first_failing (h : heap) (options : gmap string value)
    (cs : list check) : option string :=
  match cs with
  | [] => None
  | c :: cs' =>
      if check_passes h options c then first_failing h options cs'
      else Some (check_message c)
  end.

(** ** The constructors as functions of the initial heap *)

(** The outcome of [new BlendingInformation(options)] in [h] and the
    objects it leaves behind the heap, the instance first: what the
    statements of the constructor compute, read in the initial heap.
    [new_BlendingInformation_run] below proves that running the constructor
    gives exactly this.  The array test that precedes the message "Limit
    values must be provided as an array." does not appear: it looks at
    [thresholdValues], which is an array once that point is reached. *)
Definition BlendingInformation_outcome
    (h : heap) (options : gmap string value) : outcome value * list object :=
  let this := length h in
  let opticalPathIdentifier := param options "opticalPathIdentifier" in
  let color := param options "color" in
  let opacity := param options "opacity" in
  let thresholdValues := param options "thresholdValues" in
  let limitValues := param options "limitValues" in
  let visible := param options "visible" in
  let p0 : gmap string value :=
    <["opticalPathIdentifier" := opticalPathIdentifier]> ∅ in
  if loose_equals_null color then
    (Throw (Error "Color is required."), [OPlain p0])
  else if negb (is_array h color) then
    (Throw (Error "Color must be provided as an array."), [OPlain p0])
  else if negb (length_is h color 3) then
    (Throw (Error "An RGB color triplet must be provided."), [OPlain p0])
  else
    let xs := default [] (elements_of h color) in
    let p1 := <["opacity" := opacity]> (<["color" := VRef (this + 1)]> p0) in
    if loose_equals_null thresholdValues then
      (Throw (Error "Threshold values are required."), [OPlain p1; OArray xs])
    else if negb (is_array h thresholdValues) then
      (Throw (Error "Threshold values must be provided as an array."),
       [OPlain p1; OArray xs])
    else if negb (length_is h thresholdValues 2) then
      (Throw (Error "Two threshold values must be provided."),
       [OPlain p1; OArray xs])
    else
      let ys := default [] (elements_of h thresholdValues) in
      let p2 := <["thresholdValues" := VRef (this + 2)]> p1 in
      if loose_equals_null limitValues then
        (Throw (Error "Limit values are required."),
         [OPlain p2; OArray xs; OArray ys])
      else if negb (length_is h limitValues 2) then
        (Throw (Error "Two limit values must be provided."),
         [OPlain p2; OArray xs; OArray ys])
      else
        match elements_of h limitValues with
        | None => (Throw TypeError, [OPlain p2; OArray xs; OArray ys])
        | Some zs =>
            let p3 :=
              <["visible" := visible]> (<["limitValues" := VRef (this + 3)]> p2) in
            (Return (VRef this), [OPlain p3; OArray xs; OArray ys; OArray zs])
        end.

(** The properties of an instance that the constructor has completed. *)
Definition BlendingInformation_props
    (this : loc) (options : gmap string value) : gmap string value :=
  <["visible" := param options "visible"]>
    (<["limitValues" := VRef (this + 3)]>
       (<["thresholdValues" := VRef (this + 2)]>
          (<["opacity" := param options "opacity"]>
             (<["color" := VRef (this + 1)]>
                (<["opticalPathIdentifier" :=
                     param options "opticalPathIdentifier"]> ∅))))).

(** The same for [new Channel(options)]: the instance, then the object
    behind its symbol-keyed slot ([new_Channel_run]). *)
Definition Channel_outcome
    (h : heap) (options : gmap string value) : outcome value * list object :=
  let this := length h in
  let opticalPathIdentifier := param options "opticalPathIdentifier" in
  let studyInstanceUID := param options "studyInstanceUID" in
  let seriesInstanceUID := param options "seriesInstanceUID" in
  let sopInstanceUIDs := param options "sopInstanceUIDs" in
  let self : gmap string value := <[_channelAttrs := VRef (this + 1)]> ∅ in
  let a1 : gmap string value :=
    <["opticalPathIdentifier" := opticalPathIdentifier]> ∅ in
  let a2 := <["studyInstanceUID" := studyInstanceUID]> a1 in
  let a3 := <["seriesInstanceUID" := seriesInstanceUID]> a2 in
  let a4 := <["sopInstanceUIDs" := sopInstanceUIDs]> a3 in
  if strict_equals opticalPathIdentifier VUndefined then
    (Throw (Error "Optical Path Identifier is required."),
     [OPlain self; OPlain ∅])
  else if strict_equals studyInstanceUID VUndefined then
    (Throw (Error "Study Instance UID is required."), [OPlain self; OPlain a1])
  else if strict_equals seriesInstanceUID VUndefined then
    (Throw (Error "Series Instance UID is required."), [OPlain self; OPlain a2])
  else if strict_equals sopInstanceUIDs VUndefined then
    (Throw (Error "SOP Instance UIDs are required."), [OPlain self; OPlain a3])
  else
    (Return (VRef this), [OPlain self; OPlain a4]).

(** ** Inputs of the scenarios of the specification *)

(** The caller's objects: an RGB triplet, thresholds, limits, one SOP
    instance UID, an empty array, a four-element color, and the plain
    object [{ length: 2 }]. *)
Definition scenario_heap : heap :=
  [ OArray [num 255; num 0; num 0];
    OArray [num 0; num 1];
    OArray [num 0; VNumber (Finite 65535)];
    OArray [str "1.2.3.4.5"];
    OArray [];
    OArray [num 255; num 0; num 0; num 0];
    OPlain (<["length" := num 2]> ∅) ].

Definition blending_options (color thresholdValues limitValues : value)
    : gmap string value :=
  <["opticalPathIdentifier" := str "Cy5"]>
    (<["color" := color]>
       (<["opacity" := num 1]>
          (<["thresholdValues" := thresholdValues]>
             (<["limitValues" := limitValues]>
                (<["visible" := VBool true]> ∅))))).

Definition channel_options
    (opticalPathIdentifier studyInstanceUID seriesInstanceUID sopInstanceUIDs
       : value) : gmap string value :=
  <["opticalPathIdentifier" := opticalPathIdentifier]>
    (<["studyInstanceUID" := studyInstanceUID]>
       (<["seriesInstanceUID" := seriesInstanceUID]>
          (<["sopInstanceUIDs" := sopInstanceUIDs]> ∅))).

(** Scenario 3: a valid BlendingInformation. *)
Definition scenario3 : gmap string value :=
  blending_options (VRef 0) (VRef 1) (VRef 2).

(** Scenario 1: a valid Channel. *)
Definition scenario1 : gmap string value :=
  channel_options (str "Cy5") (str "1.2.3") (str "1.2.3.4") (VRef 3).

(** Scenario 2: a Channel without [sopInstanceUIDs]. *)
Definition scenario2 : gmap string value := delete "sopInstanceUIDs" scenario1.

(** Scenario 4: a BlendingInformation with a four-element color. *)
Definition scenario4 : gmap string value :=
  blending_options (VRef 5) (VRef 1) (VRef 2).

(** The one-character string U+1F600, two code units long. *)
Definition astral_string : value := VString [0xD83D; 0xDE00]%N.

(** ** Further vocabulary *)

(** The four getters of [Channel], each with the name of the property it
    reads behind the symbol-keyed slot. *)
Definition Channel_getters : list (string * (value → js value)) :=
  [ ("opticalPathIdentifier", Channel_opticalPathIdentifier);
    ("studyInstanceUID", Channel_studyInstanceUID);
    ("seriesInstanceUID", Channel_seriesInstanceUID);
    ("sopInstanceUIDs", Channel_sopInstanceUIDs) ].

(** The three fields of [BlendingInformation] that hold a spread copy. *)
Definition array_fields : list string :=
  ["color"; "thresholdValues"; "limitValues"].

(** A caller's heap whose color triplet holds a reference to an object. *)
Definition nested_heap : heap :=
  [ OPlain (<["r" := num 255]> ∅);
    OArray [VRef 0; num 0; num 0];
    OArray [num 0; num 1];
    OArray [num 0; num 1] ].

Definition nested_options : gmap string value :=
  blending_options (VRef 1) (VRef 2) (VRef 3).

(** * Properties *)

(** Throughout, the values a caller passes are [allocated]: a reference
    among them points into the caller's heap.  The statements about
    BlendingInformation, which reads its three array parameters, assume it
    of these three. *)

(** ** Facts about the operators *)

Lemma strict_equals_undefined (v : value) :
  strict_equals v VUndefined = true ↔ v = VUndefined.
Proof. by destruct v. Qed.

Lemma strict_equals_undefined_false (v : value) :
  strict_equals v VUndefined = false ↔ v ≠ VUndefined.
Proof. rewrite <-not_true_iff_false. by rewrite strict_equals_undefined. Qed.

Lemma number_of_nat_equals (a b : nat) :
  number_equals (number_of_nat a) (number_of_nat b) = bool_decide (a = b).
Proof.
  unfold number_equals, number_of_nat, Qeq_bool. simpl.
  rewrite !Z.mul_1_r. case_bool_decide as Hab.
  - subst. apply Z.eqb_refl.
  - apply Z.eqb_neq. lia.
Qed.

Lemma read_prop_is_Some (h : heap) (v : value) key :
  loose_equals_null v = false → is_Some (read_prop h v key).
Proof.
  destruct v as [| | | | |l]; try done; simpl; eauto.
  destruct (h !! l) as [[?|?]|]; eauto.
Qed.

Lemma is_array_elements (h : heap) (v : value) :
  is_array h v = true → is_Some (elements_of h v).
Proof.
  destruct v as [| | | | |l]; try done; simpl.
  destruct (h !! l) as [[?|?]|]; eauto; done.
Qed.

Lemma is_array_not_null (h : heap) (v : value) :
  is_array h v = true → loose_equals_null v = false.
Proof. by destruct v. Qed.

Lemma length_is_array (h : heap) (v : value) (n : nat) xs :
  is_array h v = true → elements_of h v = Some xs →
  length_is h v n = bool_decide (length xs = n).
Proof.
  destruct v as [| | | | |l]; try done. unfold length_is. simpl.
  destruct (h !! l) as [[ys|?]|]; try done. intros _ [= ->].
  simpl. apply number_of_nat_equals.
Qed.

Lemma array_of_length_spec (h : heap) (v : value) (n : nat) :
  array_of_length h v n = true
  ↔ ∃ l xs, v = VRef l ∧ h !! l = Some (OArray xs) ∧ length xs = n.
Proof.
  unfold array_of_length. rewrite andb_true_iff, bool_decide_eq_true.
  destruct v as [| | | | |l]; simpl;
    try (split; [intros [? _]; done | intros (? & ? & ? & _); done]).
  destruct (h !! l) as [[ys|?]|] eqn:Hl; simpl.
  - split.
    + intros [_ [= <-]]. by exists l, ys.
    + intros (l' & xs & [= <-] & Hl' & <-). rewrite Hl in Hl'.
      by injection Hl' as ->.
  - split; [intros [? _]; done|].
    intros (l' & xs & [= <-] & Hl' & _). congruence.
  - split; [intros [? _]; done|].
    intros (l' & xs & [= <-] & Hl' & _). congruence.
Qed.

Lemma array_of_length_checks (h : heap) (v : value) (n : nat) :
  array_of_length h v n = true →
  loose_equals_null v = false ∧ is_array h v = true ∧ length_is h v n = true
  ∧ ∃ xs, elements_of h v = Some xs ∧ length xs = n.
Proof.
  unfold array_of_length. rewrite andb_true_iff, bool_decide_eq_true.
  intros [Ha Hn]. destruct (is_array_elements _ _ Ha) as [xs Hxs].
  rewrite Hxs in Hn. injection Hn as Hn. split_and!.
  - by eapply is_array_not_null.
  - done.
  - rewrite (length_is_array h v n xs) by done. by apply bool_decide_eq_true.
  - eauto.
Qed.

(** ** Reading the caller's objects in an extended heap *)

Lemma lookup_allocated (h t : heap) (l : loc) :
  allocated h (VRef l) = true → (h ++ t) !! l = h !! l.
Proof.
  intros Hl. apply bool_decide_eq_true in Hl. by apply lookup_app_l.
Qed.

Section extended_heap.

Context (h t : heap) (v : value).
Hypothesis Hv : allocated h v = true.

Lemma is_array_app : is_array (h ++ t) v = is_array h v.
Proof using Hv.
  destruct v as [| | | | |l]; try done.
  simpl. by rewrite lookup_allocated.
Qed.

Lemma read_prop_app key : read_prop (h ++ t) v key = read_prop h v key.
Proof using Hv.
  destruct v as [| | | | |l]; try done.
  simpl. by rewrite lookup_allocated.
Qed.

Lemma elements_of_app : elements_of (h ++ t) v = elements_of h v.
Proof using Hv.
  destruct v as [| | | | |l]; try done.
  simpl. by rewrite lookup_allocated.
Qed.

End extended_heap.

(** ** Running the primitive operations on new objects *)

(** The new objects are the list [t] behind the caller's heap [h]; the
    [i]-th of them is at location [length h + i]. *)

Lemma alloc_app (h t : heap) (o : object) :
  alloc o (h ++ t) = (Return (VRef (length h + length t)), h ++ (t ++ [o])).
Proof. unfold alloc. by rewrite length_app, <-(assoc_L (++)). Qed.

Lemma set_prop_app (h t : heap) (i : nat) key x p :
  t !! i = Some (OPlain p) →
  set_prop (VRef (length h + i)) key x (h ++ t)
  = (Return (), h ++ <[i := OPlain (<[key := x]> p)]> t).
Proof.
  intros Hi. unfold set_prop.
  rewrite lookup_app_r by lia.
  replace (length h + i - length h) with i by lia. rewrite Hi.
  f_equal. rewrite insert_app_r_alt by lia. f_equal. f_equal. lia.
Qed.

Lemma read_prop_new (h t : heap) (i : nat) key p :
  t !! i = Some (OPlain p) →
  read_prop (h ++ t) (VRef (length h + i)) key
  = Some (default VUndefined (p !! key)).
Proof.
  intros Hi. unfold read_prop.
  rewrite lookup_app_r by lia.
  replace (length h + i - length h) with i by lia. by rewrite Hi.
Qed.

Lemma get_prop_new (h t : heap) (i : nat) key p :
  t !! i = Some (OPlain p) →
  get_prop (VRef (length h + i)) key (h ++ t)
  = (Return (default VUndefined (p !! key)), h ++ t).
Proof. intros Hi. unfold get_prop. by rewrite (read_prop_new _ _ _ _ p). Qed.

(** Reading a field of an instance, the first of the new objects. *)
Lemma read_instance_field (h t : heap) (p : gmap string value) key :
  read_prop (h ++ OPlain p :: t) (VRef (length h)) key
  = Some (default VUndefined (p !! key)).
Proof.
  rewrite <-(Nat.add_0_r (length h)). by apply read_prop_new.
Qed.

Lemma read_instance_field_at (h t : heap) (n : nat) p key :
  length h = n →
  read_prop (h ++ OPlain p :: t) (VRef n) key
  = Some (default VUndefined (p !! key)).
Proof. intros <-. apply read_instance_field. Qed.

(** ** One statement at a time *)

(** Each lemma runs the first statement of a sequence and hands the rest
    its result and the heap. *)

Section steps.

Context {R : Type}.

Lemma bind_assoc {B C} (m : js B) (f : B → js C) (g : C → js R) h :
  bind (bind m f) g h = bind m (λ x, bind (f x) g) h.
Proof. unfold bind. by destruct (m h) as [[?|?] ?]. Qed.

Lemma bind_throw_if (c : bool) e (g : unit → js R) h :
  bind (throw_if c e) g h = if c then (Throw e, h) else g () h.
Proof. by destruct c. Qed.

Lemma bind_alloc o (g : value → js R) (h t : heap) :
  bind (alloc o) g (h ++ t) = g (VRef (length h + length t)) (h ++ (t ++ [o])).
Proof. unfold bind. by rewrite alloc_app. Qed.

Lemma bind_set_prop (g : unit → js R) (h t : heap) i key x p :
  t !! i = Some (OPlain p) →
  bind (set_prop (VRef (length h + i)) key x) g (h ++ t)
  = g () (h ++ <[i := OPlain (<[key := x]> p)]> t).
Proof. intros Hi. unfold bind. by rewrite (set_prop_app _ _ _ _ _ p). Qed.

Lemma bind_get_prop_new (g : value → js R) (h t : heap) i key p :
  t !! i = Some (OPlain p) →
  bind (get_prop (VRef (length h + i)) key) g (h ++ t)
  = g (default VUndefined (p !! key)) (h ++ t).
Proof. intros Hi. unfold bind. by rewrite (get_prop_new _ _ _ _ p). Qed.

Lemma bind_Array_isArray (g : bool → js R) (h t : heap) v :
  allocated h v = true →
  bind (Array_isArray v) g (h ++ t) = g (is_array h v) (h ++ t).
Proof. intros Hv. unfold bind, Array_isArray. by rewrite is_array_app. Qed.

Lemma bind_get_prop (g : value → js R) (h t : heap) v key :
  allocated h v = true →
  bind (get_prop v key) g (h ++ t)
  = match read_prop h v key with
    | Some x => g x (h ++ t)
    | None => (Throw TypeError, h ++ t)
    end.
Proof.
  intros Hv. unfold bind, get_prop. rewrite read_prop_app by done.
  by destruct (read_prop h v key).
Qed.

Lemma bind_array_spread (g : value → js R) (h t : heap) v :
  allocated h v = true →
  bind (array_spread v) g (h ++ t)
  = match elements_of h v with
    | Some xs => g (VRef (length h + length t)) (h ++ (t ++ [OArray xs]))
    | None => (Throw TypeError, h ++ t)
    end.
Proof.
  intros Hv. unfold array_spread. rewrite bind_assoc.
  unfold bind at 1, iterate. rewrite elements_of_app by done.
  destruct (elements_of h v); [|done]. by rewrite bind_alloc.
Qed.

End steps.

(** A statement on the instance under construction. *)
Ltac step_new :=
  first
    [ rewrite bind_assoc
    | rewrite bind_throw_if
    | rewrite bind_alloc
    | erewrite bind_set_prop by reflexivity
    | erewrite bind_get_prop_new by reflexivity ];
  cbn [length app lookup list_lookup insert list_insert Nat.add].

(** A statement that reads a value of the caller. *)
Ltac step_read :=
  first
    [ rewrite bind_Array_isArray by done
    | rewrite bind_get_prop by done
    | rewrite bind_array_spread by done ];
  cbn [length app lookup list_lookup insert list_insert Nat.add].

Ltac steps := repeat first [step_new | step_read].

(** ** The constructors run *)

Lemma new_Channel_run (h : heap) (o : gmap string value) :
  new_Channel o h = ((Channel_outcome h o).1, h ++ (Channel_outcome h o).2).
Proof.
  unfold new_Channel, Channel_constructor, Channel_outcome.
  rewrite <-(app_nil_r h) at 1.
  do 7 step_new.
  destruct (strict_equals (param o "opticalPathIdentifier") _); [done|].
  do 2 step_new. rewrite lookup_insert_eq. cbn [default from_option id].
  do 4 step_new.
  destruct (strict_equals (param o "studyInstanceUID") _); [done|].
  do 2 step_new. rewrite lookup_insert_eq. cbn [default from_option id].
  do 4 step_new.
  destruct (strict_equals (param o "seriesInstanceUID") _); [done|].
  do 2 step_new. rewrite lookup_insert_eq. cbn [default from_option id].
  do 4 step_new.
  destruct (strict_equals (param o "sopInstanceUIDs") _); [done|].
  do 2 step_new. rewrite lookup_insert_eq. cbn [default from_option id].
  step_new. unfold ret. cbn [fst snd]. by rewrite Nat.add_0_r.
Qed.

Lemma new_BlendingInformation_run (h : heap) (o : gmap string value) :
  allocated h (param o "color") = true →
  allocated h (param o "thresholdValues") = true →
  allocated h (param o "limitValues") = true →
  new_BlendingInformation o h
  = ((BlendingInformation_outcome h o).1,
     h ++ (BlendingInformation_outcome h o).2).
Proof.
  intros Hc Ht Hl.
  unfold new_BlendingInformation, BlendingInformation_constructor,
    BlendingInformation_outcome, length_is, strict_not_equals.
  rewrite <-(app_nil_r h) at 1.
  steps.
  destruct (loose_equals_null (param o "color")) eqn:Hcn; [done|].
  destruct (is_array h (param o "color")) eqn:Hca; [|done].
  destruct (read_prop_is_Some h _ "length" Hcn) as [n ->].
  destruct (is_array_elements _ _ Hca) as [xs Hxs].
  cbn [negb]. steps.
  destruct (strict_equals n (num 3)); [|done].
  rewrite Hxs. cbn [negb default from_option id]. steps.
  destruct (loose_equals_null (param o "thresholdValues")) eqn:Htn; [done|].
  destruct (is_array h (param o "thresholdValues")) eqn:Hta; [|done].
  destruct (read_prop_is_Some h _ "length" Htn) as [n' ->].
  destruct (is_array_elements _ _ Hta) as [ys Hys].
  cbn [negb]. steps.
  destruct (strict_equals n' (num 2)); [|done].
  rewrite Hys. cbn [negb default from_option id]. steps.
  destruct (loose_equals_null (param o "limitValues")) eqn:Hln; [done|].
  destruct (read_prop_is_Some h _ "length" Hln) as [n'' ->].
  steps. rewrite Hta.
  destruct (strict_equals n'' (num 2)); [|done].
  cbn [negb].
  destruct (elements_of h (param o "limitValues")) as [zs|]; [|done].
  steps. unfold ret. cbn [fst snd]. by rewrite Nat.add_0_r.
Qed.

Lemma new_BlendingInformation_outcome (h : heap) (o : gmap string value) :
  allocated h (param o "color") = true →
  allocated h (param o "thresholdValues") = true →
  allocated h (param o "limitValues") = true →
  (new_BlendingInformation o h).1 = (BlendingInformation_outcome h o).1.
Proof. intros. by rewrite new_BlendingInformation_run. Qed.

(** ** Channel *)

(** A getter of an instance built by the constructor reads the object
    behind the symbol-keyed slot. *)
Lemma Channel_getter_run (h : heap) (attrs : gmap string value) key :
  bind (get_prop (VRef (length h)) _channelAttrs) (λ a, get_prop a key)
    (h ++ [OPlain (<[_channelAttrs := VRef (length h + 1)]> ∅); OPlain attrs])
  = (Return (default VUndefined (attrs !! key)),
     h ++ [OPlain (<[_channelAttrs := VRef (length h + 1)]> ∅); OPlain attrs]).
Proof.
  rewrite <-(Nat.add_0_r (length h)) at 1.
  unfold bind. erewrite get_prop_new by reflexivity.
  rewrite lookup_insert_eq. cbn [default from_option id].
  by erewrite get_prop_new by reflexivity.
Qed.

(** With its four fields present, construction returns the instance and
    leaves the instance and its attribute object behind the caller's heap. *)
Lemma new_Channel_present (h : heap) (o : gmap string value) :
  param o "opticalPathIdentifier" ≠ VUndefined →
  param o "studyInstanceUID" ≠ VUndefined →
  param o "seriesInstanceUID" ≠ VUndefined →
  param o "sopInstanceUIDs" ≠ VUndefined →
  new_Channel o h
  = (Return (VRef (length h)),
     h ++ [ OPlain (<[_channelAttrs := VRef (length h + 1)]> ∅);
            OPlain (<["sopInstanceUIDs" := param o "sopInstanceUIDs"]>
                   (<["seriesInstanceUID" := param o "seriesInstanceUID"]>
                   (<["studyInstanceUID" := param o "studyInstanceUID"]>
                   (<["opticalPathIdentifier" := param o "opticalPathIdentifier"]>
                      ∅)))) ]).
Proof.
  intros H1 H2 H3 H4. rewrite new_Channel_run. unfold Channel_outcome.
  apply strict_equals_undefined_false in H1, H2, H3, H4.
  by rewrite H1, H2, H3, H4.
Qed.

Lemma new_Channel_extends (h : heap) (o : gmap string value) :
  ∃ t, (new_Channel o h).2 = h ++ t.
Proof. rewrite new_Channel_run. eauto. Qed.

Lemma Channel_missing_field_cases (h : heap) (o : gmap string value) :
  (∃ m, (new_Channel o h).1 = Throw (Error m)
        ∧ kind_of_message m = Some MissingFieldError)
  ∨ (param o "opticalPathIdentifier" ≠ VUndefined
     ∧ param o "studyInstanceUID" ≠ VUndefined
     ∧ param o "seriesInstanceUID" ≠ VUndefined
     ∧ param o "sopInstanceUIDs" ≠ VUndefined).
Proof.
  rewrite new_Channel_run. unfold Channel_outcome. cbn [fst].
  destruct (strict_equals (param o "opticalPathIdentifier") _) eqn:E1;
    [left; by eexists|].
  destruct (strict_equals (param o "studyInstanceUID") _) eqn:E2;
    [left; by eexists|].
  destruct (strict_equals (param o "seriesInstanceUID") _) eqn:E3;
    [left; by eexists|].
  destruct (strict_equals (param o "sopInstanceUIDs") _) eqn:E4;
    [left; by eexists|].
  right. by rewrite <-!strict_equals_undefined_false.
Qed.

Lemma Channel_accessors_run (h : heap) (o : gmap string value) :
  param o "opticalPathIdentifier" ≠ VUndefined →
  param o "studyInstanceUID" ≠ VUndefined →
  param o "seriesInstanceUID" ≠ VUndefined →
  param o "sopInstanceUIDs" ≠ VUndefined →
  let this := VRef (length h) in
  let h' := (new_Channel o h).2 in
  new_Channel o h = (Return this, h')
  ∧ Channel_opticalPathIdentifier this h'
    = (Return (param o "opticalPathIdentifier"), h')
  ∧ Channel_studyInstanceUID this h'
    = (Return (param o "studyInstanceUID"), h')
  ∧ Channel_seriesInstanceUID this h'
    = (Return (param o "seriesInstanceUID"), h')
  ∧ Channel_sopInstanceUIDs this h'
    = (Return (param o "sopInstanceUIDs"), h').
Proof.
  intros H1 H2 H3 H4 this h'. unfold h', this.
  rewrite new_Channel_present by done. cbn [snd].
  unfold Channel_opticalPathIdentifier, Channel_studyInstanceUID,
    Channel_seriesInstanceUID, Channel_sopInstanceUIDs.
  rewrite !Channel_getter_run.
  split_and!; try done;
    by repeat (rewrite ?lookup_insert_eq, ?lookup_insert_ne by done).
Qed.

(** C3: [new Channel(options)] fails with a MissingFieldError exactly when
    one of [opticalPathIdentifier], [studyInstanceUID], [seriesInstanceUID],
    [sopInstanceUIDs] is [undefined] (its key omitted, or bound to
    [undefined]) and has no other failure; a failure yields no instance;
    empty strings and an empty array are accepted. *)
Theorem Channel_missing_field_iff (h : heap) (o : gmap string value) :
  let r := (new_Channel o h).1 in
  (failure_kind r = Some MissingFieldError
   ↔ param o "opticalPathIdentifier" = VUndefined
     ∨ param o "studyInstanceUID" = VUndefined
     ∨ param o "seriesInstanceUID" = VUndefined
     ∨ param o "sopInstanceUIDs" = VUndefined)
  ∧ (failure_kind r = Some MissingFieldError ∨ r = Return (VRef (length h)))
  ∧ (failure_kind r = Some MissingFieldError → ∀ this, r ≠ Return this)
  ∧ (∀ l, h !! l = Some (OArray []) →
       thrown
         (new_Channel (channel_options (str "") (str "") (str "") (VRef l)) h).1
       = None).
Proof.
  intros r. subst r. rewrite !new_Channel_run. unfold Channel_outcome.
  cbn [fst]. split_and!.
  - destruct (strict_equals (param o "opticalPathIdentifier") _) eqn:E1;
      [apply strict_equals_undefined in E1; cbn; tauto|].
    destruct (strict_equals (param o "studyInstanceUID") _) eqn:E2;
      [apply strict_equals_undefined in E2; cbn; tauto|].
    destruct (strict_equals (param o "seriesInstanceUID") _) eqn:E3;
      [apply strict_equals_undefined in E3; cbn; tauto|].
    destruct (strict_equals (param o "sopInstanceUIDs") _) eqn:E4;
      [apply strict_equals_undefined in E4; cbn; tauto|].
    apply strict_equals_undefined_false in E1, E2, E3, E4.
    cbn. split; [done|tauto].
  - repeat (destruct (strict_equals _ _); [by left|]). by right.
  - repeat (destruct (strict_equals _ _); [done|]). done.
  - intros l _. rewrite new_Channel_run. by vm_compute.
Qed.

(** C4: with the four fields present, construction succeeds and each getter
    returns the very value supplied (the same primitive, or the same
    reference: [sopInstanceUIDs] is the caller's array itself, and no object
    of the caller's heap is changed, so its elements and their order are
    as supplied); a getter changes nothing. *)
Theorem Channel_accessors_return_supplied (h : heap) (o : gmap string value) :
  param o "opticalPathIdentifier" ≠ VUndefined →
  param o "studyInstanceUID" ≠ VUndefined →
  param o "seriesInstanceUID" ≠ VUndefined →
  param o "sopInstanceUIDs" ≠ VUndefined →
  ∃ this h',
    new_Channel o h = (Return this, h')
    ∧ Channel_opticalPathIdentifier this h'
      = (Return (param o "opticalPathIdentifier"), h')
    ∧ Channel_studyInstanceUID this h'
      = (Return (param o "studyInstanceUID"), h')
    ∧ Channel_seriesInstanceUID this h'
      = (Return (param o "seriesInstanceUID"), h')
    ∧ Channel_sopInstanceUIDs this h'
      = (Return (param o "sopInstanceUIDs"), h')
    ∧ ∀ l x, h !! l = Some x → h' !! l = Some x.
Proof.
  intros H1 H2 H3 H4.
  destruct (Channel_accessors_run h o H1 H2 H3 H4) as (E & G1 & G2 & G3 & G4).
  eexists _, _. split_and!; [done..|].
  intros l x Hl. destruct (new_Channel_extends h o) as [t ->].
  by apply lookup_app_l_Some.
Qed.

(** Scenario 1 of the specification. *)
Lemma Channel_accessors_scenario1 :
  ∃ this h',
    new_Channel scenario1 scenario_heap = (Return this, h')
    ∧ Channel_opticalPathIdentifier this h' = (Return (str "Cy5"), h')
    ∧ Channel_sopInstanceUIDs this h' = (Return (VRef 3), h')
    ∧ h' !! 3 = Some (OArray [str "1.2.3.4.5"]).
Proof.
  destruct (Channel_accessors_return_supplied scenario_heap scenario1)
    as (this & h' & E & G1 & _ & _ & G4 & Hframe); [by vm_compute..|].
  exists this, h'. split_and!; [done..|].
  by apply Hframe.
Defined.

(** ** BlendingInformation *)

(** The presence checks, each reached when the fields before it are
    valid. *)
Lemma BlendingInformation_outcome_required (h : heap) (o : gmap string value) :
  (loose_equals_null (param o "color") = true →
   (BlendingInformation_outcome h o).1 = Throw (Error "Color is required."))
  ∧ (array_of_length h (param o "color") 3 = true →
     loose_equals_null (param o "thresholdValues") = true →
     (BlendingInformation_outcome h o).1
     = Throw (Error "Threshold values are required."))
  ∧ (array_of_length h (param o "color") 3 = true →
     array_of_length h (param o "thresholdValues") 2 = true →
     loose_equals_null (param o "limitValues") = true →
     (BlendingInformation_outcome h o).1
     = Throw (Error "Limit values are required.")).
Proof.
  unfold BlendingInformation_outcome. split_and!.
  - by intros ->.
  - intros (-> & -> & -> & _)%array_of_length_checks ->. done.
  - intros (-> & -> & -> & _)%array_of_length_checks
      (-> & -> & -> & _)%array_of_length_checks ->. done.
Qed.

(** The shape checks on arrays, each reached when the fields before it are
    valid, and the success of a construction from three valid arrays. *)
Lemma BlendingInformation_outcome_shape (h : heap) (o : gmap string value) :
  (loose_equals_null (param o "color") = false →
   array_of_length h (param o "color") 3 = false →
   failure_kind (BlendingInformation_outcome h o).1 = Some ShapeError)
  ∧ (array_of_length h (param o "color") 3 = true →
     loose_equals_null (param o "thresholdValues") = false →
     array_of_length h (param o "thresholdValues") 2 = false →
     failure_kind (BlendingInformation_outcome h o).1 = Some ShapeError)
  ∧ (array_of_length h (param o "color") 3 = true →
     array_of_length h (param o "thresholdValues") 2 = true →
     is_array h (param o "limitValues") = true →
     array_of_length h (param o "limitValues") 2 = false →
     failure_kind (BlendingInformation_outcome h o).1 = Some ShapeError)
  ∧ (array_of_length h (param o "color") 3 = true →
     array_of_length h (param o "thresholdValues") 2 = true →
     array_of_length h (param o "limitValues") 2 = true →
     (BlendingInformation_outcome h o).1 = Return (VRef (length h))).
Proof.
  assert (∀ v n, is_array h v = true → array_of_length h v n = false →
                 length_is h v n = false) as Hlen.
  { intros v n Ha. unfold array_of_length. rewrite Ha. cbn [andb].
    destruct (is_array_elements _ _ Ha) as [xs Hxs].
    rewrite (length_is_array h v n xs), Hxs by done. cbn.
    rewrite !bool_decide_eq_false. naive_solver. }
  unfold BlendingInformation_outcome. split_and!.
  - intros -> Hc. destruct (is_array h (param o "color")) eqn:Ha; [|done].
    by rewrite (Hlen _ _ Ha Hc).
  - intros (-> & -> & -> & _)%array_of_length_checks -> Ht. cbn [negb].
    destruct (is_array h (param o "thresholdValues")) eqn:Ha; [|done].
    by rewrite (Hlen _ _ Ha Ht).
  - intros (-> & -> & -> & _)%array_of_length_checks
      (-> & -> & -> & _)%array_of_length_checks Ha Hl. cbn [negb].
    rewrite (is_array_not_null _ _ Ha). by rewrite (Hlen _ _ Ha Hl).
  - intros (-> & -> & -> & _)%array_of_length_checks
      (-> & -> & -> & _)%array_of_length_checks
      (-> & _ & -> & xs & -> & _)%array_of_length_checks. done.
Qed.

(** The error raised is the message of the first failing check. *)
Lemma BlendingInformation_outcome_first_failing
    (h : heap) (o : gmap string value) (msg : string) :
  (BlendingInformation_outcome h o).1 = Throw (Error msg)
  ↔ first_failing h o blending_checks = Some msg.
Proof.
  unfold BlendingInformation_outcome, blending_checks, first_failing,
    check_passes.
  cbn [check_field check_what check_message].
  destruct (loose_equals_null (param o "color")); cbn [negb fst];
    [split; intros [= <-]; done|].
  destruct (is_array h (param o "color")); cbn [negb fst];
    [|split; intros [= <-]; done].
  destruct (length_is h (param o "color") 3); cbn [negb fst];
    [|split; intros [= <-]; done].
  destruct (loose_equals_null (param o "thresholdValues")); cbn [negb fst];
    [split; intros [= <-]; done|].
  destruct (is_array h (param o "thresholdValues")); cbn [negb fst];
    [|split; intros [= <-]; done].
  destruct (length_is h (param o "thresholdValues") 2); cbn [negb fst];
    [|split; intros [= <-]; done].
  destruct (loose_equals_null (param o "limitValues")); cbn [negb fst];
    [split; intros [= <-]; done|].
  destruct (length_is h (param o "limitValues") 2); cbn [negb fst];
    [|split; intros [= <-]; done].
  by destruct (elements_of h (param o "limitValues")).
Qed.

(** The exception raised depends on [color], [thresholdValues] and
    [limitValues] alone. *)
Lemma BlendingInformation_outcome_thrown_ext
    (h : heap) (o o' : gmap string value) :
  param o' "color" = param o "color" →
  param o' "thresholdValues" = param o "thresholdValues" →
  param o' "limitValues" = param o "limitValues" →
  thrown (BlendingInformation_outcome h o').1
  = thrown (BlendingInformation_outcome h o).1.
Proof.
  intros Hc Ht Hl. unfold BlendingInformation_outcome.
  rewrite Hc, Ht, Hl.
  repeat match goal with
         | |- context [if ?c then _ else _] => destruct c; [done|]
         end.
  by destruct (elements_of h (param o "limitValues")).
Qed.

(** What a successful construction has checked and built: the instance
    at the first new location, then the three copies. *)
Lemma new_BlendingInformation_Return
    (h : heap) (o : gmap string value) (this : value) (h' : heap) :
  allocated h (param o "color") = true →
  allocated h (param o "thresholdValues") = true →
  allocated h (param o "limitValues") = true →
  new_BlendingInformation o h = (Return this, h') →
  ∃ xs ys zs,
    array_of_length h (param o "color") 3 = true
    ∧ elements_of h (param o "color") = Some xs
    ∧ array_of_length h (param o "thresholdValues") 2 = true
    ∧ elements_of h (param o "thresholdValues") = Some ys
    ∧ loose_equals_null (param o "limitValues") = false
    ∧ length_is h (param o "limitValues") 2 = true
    ∧ elements_of h (param o "limitValues") = Some zs
    ∧ this = VRef (length h)
    ∧ h' = h ++ [ OPlain (BlendingInformation_props (length h) o);
                  OArray xs; OArray ys; OArray zs ].
Proof.
  intros Hc Ht Hl. rewrite new_BlendingInformation_run by done.
  unfold BlendingInformation_outcome, array_of_length.
  destruct (loose_equals_null (param o "color")); [done|].
  destruct (is_array h (param o "color")) eqn:Hca; [|done].
  destruct (is_array_elements _ _ Hca) as [xs Hxs].
  rewrite (length_is_array h _ 3 xs), Hxs by done.
  destruct (bool_decide (length xs = 3)) eqn:Hx; [|done].
  destruct (loose_equals_null (param o "thresholdValues")); [done|].
  destruct (is_array h (param o "thresholdValues")) eqn:Hta; [|done].
  destruct (is_array_elements _ _ Hta) as [ys Hys].
  rewrite (length_is_array h _ 2 ys), Hys by done.
  destruct (bool_decide (length ys = 2)) eqn:Hy; [|done].
  destruct (loose_equals_null (param o "limitValues")); [done|].
  destruct (length_is h (param o "limitValues") 2); [|done].
  destruct (elements_of h (param o "limitValues")) as [zs|]; [|done].
  cbn [negb fst snd default from_option id andb fmap option_fmap option_map].
  intros [= <- <-]. exists xs, ys, zs.
  apply bool_decide_eq_true in Hx, Hy. rewrite Hx, Hy.
  split_and!; try done; by apply bool_decide_eq_true.
Qed.

(** The instance a successful construction returns. *)
Lemma BlendingInformation_instance
    (h : heap) (o : gmap string value) (this : value) (h' : heap) :
  allocated h (param o "color") = true →
  allocated h (param o "thresholdValues") = true →
  allocated h (param o "limitValues") = true →
  new_BlendingInformation o h = (Return this, h') →
  this = VRef (length h)
  ∧ read_prop h' this "opticalPathIdentifier"
    = Some (param o "opticalPathIdentifier")
  ∧ read_prop h' this "opacity" = Some (param o "opacity")
  ∧ read_prop h' this "visible" = Some (param o "visible")
  ∧ ∃ c t l,
      read_prop h' this "color" = Some (VRef c)
      ∧ read_prop h' this "thresholdValues" = Some (VRef t)
      ∧ read_prop h' this "limitValues" = Some (VRef l)
      ∧ array_of_length h' (VRef c) 3 = true
      ∧ array_of_length h' (VRef t) 2 = true
      ∧ is_array h' (VRef l) = true
      ∧ (is_array h (param o "limitValues") = true →
         array_of_length h' (VRef l) 2 = true).
Proof.
  intros Hc Ht Hl Hnew.
  apply new_BlendingInformation_Return in Hnew as
      (xs & ys & zs & Hca & Hxs & Hta & Hys & Hln & Hll & Hzs & -> & ->);
    [|done..].
  apply array_of_length_checks in Hca as (_ & _ & _ & xs' & Hxs' & Hx3).
  apply array_of_length_checks in Hta as (_ & _ & _ & ys' & Hys' & Hy2).
  rewrite Hxs in Hxs'. injection Hxs' as <-.
  rewrite Hys in Hys'. injection Hys' as <-.
  rewrite !read_instance_field. unfold BlendingInformation_props.
  split_and!; try done;
    try by repeat (rewrite ?lookup_insert_eq, ?lookup_insert_ne by done).
  exists (length h + 1), (length h + 2), (length h + 3).
  split_and!;
    try by repeat (rewrite ?lookup_insert_eq, ?lookup_insert_ne by done).
  - apply array_of_length_spec. exists (length h + 1), xs.
    split_and!; [done| |done]. rewrite lookup_app_r by lia.
    by replace (length h + 1 - length h) with 1 by lia.
  - apply array_of_length_spec. exists (length h + 2), ys.
    split_and!; [done| |done]. rewrite lookup_app_r by lia.
    by replace (length h + 2 - length h) with 2 by lia.
  - cbn. rewrite lookup_app_r by lia.
    by replace (length h + 3 - length h) with 3 by lia.
  - intros Hla. rewrite (length_is_array _ _ 2 zs) in Hll by done.
    apply bool_decide_eq_true in Hll.
    apply array_of_length_spec. exists (length h + 3), zs.
    split_and!; [done| |done]. rewrite lookup_app_r by lia.
    by replace (length h + 3 - length h) with 3 by lia.
Qed.

Lemma new_BlendingInformation_extends (h : heap) (o : gmap string value) :
  allocated h (param o "color") = true →
  allocated h (param o "thresholdValues") = true →
  allocated h (param o "limitValues") = true →
  ∃ t, (new_BlendingInformation o h).2 = h ++ t.
Proof. intros. rewrite new_BlendingInformation_run by done. eauto. Qed.

(** C2: the error raised by the constructor is the message of the first
    check that fails in the fixed order of [blending_checks] (whose eighth
    check looks at [thresholdValues]); being a function of the heap and the
    options, the outcome is determined; and replacing [opacity] and
    [visible] by any values changes neither the checks nor the exception. *)
Theorem first_failing_check_determines_error
    (h : heap) (o : gmap string value) :
  allocated h (param o "color") = true →
  allocated h (param o "thresholdValues") = true →
  allocated h (param o "limitValues") = true →
  (∀ msg,
     (new_BlendingInformation o h).1 = Throw (Error msg)
     ↔ first_failing h o blending_checks = Some msg)
  ∧ (∀ opacity visible,
       let o' := <["opacity" := opacity]> (<["visible" := visible]> o) in
       first_failing h o' blending_checks = first_failing h o blending_checks
       ∧ thrown (new_BlendingInformation o' h).1
         = thrown (new_BlendingInformation o h).1).
Proof.
  intros Hc Ht Hl. split.
  - intros msg. rewrite new_BlendingInformation_outcome by done.
    apply BlendingInformation_outcome_first_failing.
  - intros opacity visible o'.
    assert (∀ k, k ≠ "opacity" → k ≠ "visible" → param o' k = param o k)
      as Hsame.
    { intros k ??. unfold param, o'. by rewrite !lookup_insert_ne. }
    split.
    + unfold blending_checks, first_failing, check_passes.
      cbn [check_field check_what check_message].
      by rewrite !Hsame.
    + rewrite !new_BlendingInformation_outcome by (by rewrite ?Hsame).
      apply BlendingInformation_outcome_thrown_ext; by rewrite Hsame.
Qed.

(** Three invalid fields at once: a four-element [color], [null] for
    [thresholdValues] and a number for [limitValues]; the error is that of
    [color], whatever [opacity] and [visible] are. *)
Lemma first_failing_check_scenario :
  let o := blending_options (VRef 5) VNull (VNumber NaN) in
  first_failing scenario_heap o blending_checks
  = Some "An RGB color triplet must be provided."
  ∧ (new_BlendingInformation o scenario_heap).1
    = Throw (Error "An RGB color triplet must be provided.")
  ∧ ∀ opacity visible,
      thrown
        (new_BlendingInformation
           (<["opacity" := opacity]> (<["visible" := visible]> o))
           scenario_heap).1
      = Some (Error "An RGB color triplet must be provided.").
Proof.
  intros o.
  destruct (first_failing_check_determines_error scenario_heap o)
    as [Hfirst Hsame]; [by vm_compute..|].
  assert (first_failing scenario_heap o blending_checks
          = Some "An RGB color triplet must be provided.") as Hmsg
    by by vm_compute.
  apply Hfirst in Hmsg as Hthrow. split_and!; [done..|].
  intros opacity visible.
  destruct (Hsame opacity visible) as [_ ->]. by rewrite Hthrow.
Defined.

(** C5: omitting [color], [thresholdValues] or [limitValues] (its
    parameter is then [undefined]) makes the constructor fail with a
    MissingFieldError: for [color] always, for the other two when the fields
    checked before them are valid arrays. *)
Theorem missing_required_field (h : heap) (o : gmap string value) :
  allocated h (param o "color") = true →
  allocated h (param o "thresholdValues") = true →
  allocated h (param o "limitValues") = true →
  (param o "color" = VUndefined →
   failure_kind (new_BlendingInformation o h).1 = Some MissingFieldError)
  ∧ (array_of_length h (param o "color") 3 = true →
     param o "thresholdValues" = VUndefined →
     failure_kind (new_BlendingInformation o h).1 = Some MissingFieldError)
  ∧ (array_of_length h (param o "color") 3 = true →
     array_of_length h (param o "thresholdValues") 2 = true →
     param o "limitValues" = VUndefined →
     failure_kind (new_BlendingInformation o h).1 = Some MissingFieldError).
Proof.
  intros Hc Ht Hl. rewrite new_BlendingInformation_outcome by done.
  destruct (BlendingInformation_outcome_required h o) as (H1 & H2 & H3).
  split_and!.
  - intros E. rewrite H1; [done|by rewrite E].
  - intros ? E. rewrite H2; [done..|by rewrite E].
  - intros ?? E. rewrite H3; [done..|by rewrite E].
Qed.

Lemma missing_required_field_scenario :
  failure_kind
    (new_BlendingInformation (delete "limitValues" scenario3) scenario_heap).1
  = Some MissingFieldError.
Proof.
  refine (proj2 (proj2 (missing_required_field scenario_heap
                          (delete "limitValues" scenario3) _ _ _)) _ _ _);
    by vm_compute.
Defined.

(** C8: whatever [opticalPathIdentifier], [opacity] and [visible] are
    (absent, of any type, any number), they do not make the constructor
    fail and each is stored exactly as given.  For two option records [o]
    and [o'] that agree on [color], [thresholdValues] and [limitValues]:
    they raise the same exception or both succeed; if the construction from
    [o] returns, so does the one from [o'], with its own three values
    stored; in particular, with a three-element [color] and two-element
    [thresholdValues] and [limitValues] arrays, the construction from [o']
    returns an instance that holds the three values of [o']. *)
Theorem unchecked_fields_accepted_and_stored
    (h : heap) (o o' : gmap string value) :
  allocated h (param o "color") = true →
  allocated h (param o "thresholdValues") = true →
  allocated h (param o "limitValues") = true →
  param o' "color" = param o "color" →
  param o' "thresholdValues" = param o "thresholdValues" →
  param o' "limitValues" = param o "limitValues" →
  let stored (this : value) (h' : heap) :=
    read_prop h' this "opticalPathIdentifier"
    = Some (param o' "opticalPathIdentifier")
    ∧ read_prop h' this "opacity" = Some (param o' "opacity")
    ∧ read_prop h' this "visible" = Some (param o' "visible") in
  thrown (new_BlendingInformation o' h).1
  = thrown (new_BlendingInformation o h).1
  ∧ (∀ this, (new_BlendingInformation o h).1 = Return this →
       ∃ h', new_BlendingInformation o' h = (Return (VRef (length h)), h')
             ∧ stored (VRef (length h)) h')
  ∧ (array_of_length h (param o "color") 3 = true →
     array_of_length h (param o "thresholdValues") 2 = true →
     array_of_length h (param o "limitValues") 2 = true →
     ∃ h', new_BlendingInformation o' h = (Return (VRef (length h)), h')
           ∧ stored (VRef (length h)) h')
  ∧ ∀ this h',
      new_BlendingInformation o' h = (Return this, h') → stored this h'.
Proof.
  intros Hc Ht Hl Ec Et El stored.
  assert (thrown (new_BlendingInformation o' h).1
          = thrown (new_BlendingInformation o h).1) as Hthrown.
  { rewrite !new_BlendingInformation_outcome by (by rewrite ?Ec, ?Et, ?El).
    by apply BlendingInformation_outcome_thrown_ext. }
  assert (∀ this h',
            new_BlendingInformation o' h = (Return this, h') →
            this = VRef (length h) ∧ stored this h') as Hstored.
  { intros this h' Hnew.
    apply new_BlendingInformation_Return in Hnew as
        (xs & ys & zs & _ & _ & _ & _ & _ & _ & _ & -> & ->);
      [|by rewrite ?Ec, ?Et, ?El..].
    unfold stored. rewrite !read_instance_field.
    unfold BlendingInformation_props.
    split_and!; try done;
      by repeat (rewrite ?lookup_insert_eq, ?lookup_insert_ne by done). }
  assert (∀ this, (new_BlendingInformation o h).1 = Return this →
            ∃ h', new_BlendingInformation o' h = (Return (VRef (length h)), h')
                  ∧ stored (VRef (length h)) h') as Hreturns.
  { intros this Hr. rewrite Hr in Hthrown.
    destruct (new_BlendingInformation o' h) as [[this'|e] h'] eqn:Hnew;
      [|done].
    destruct (Hstored this' h' eq_refl) as [-> ?]. eauto. }
  split_and!; [done|done| |].
  - intros Vc Vt Vl. apply (Hreturns (VRef (length h))).
    rewrite new_BlendingInformation_outcome by done.
    by apply BlendingInformation_outcome_shape.
  - intros this h' Hnew. by apply Hstored.
Qed.

(** Scenario 3 with a number as [opticalPathIdentifier], a string as
    [opacity] and no [visible]. *)
Lemma unchecked_fields_scenario :
  ∃ h',
    new_BlendingInformation
      (<["opacity" := VString []]> (delete "visible"
         (<["opticalPathIdentifier" := VNumber NaN]> scenario3)))
      scenario_heap
    = (Return (VRef 7), h')
    ∧ read_prop h' (VRef 7) "opticalPathIdentifier" = Some (VNumber NaN)
    ∧ read_prop h' (VRef 7) "opacity" = Some (VString [])
    ∧ read_prop h' (VRef 7) "visible" = Some VUndefined.
Proof.
  destruct (unchecked_fields_accepted_and_stored scenario_heap scenario3
              (<["opacity" := VString []]> (delete "visible"
                 (<["opticalPathIdentifier" := VNumber NaN]> scenario3))))
    as (_ & _ & Hvalid & _); [by vm_compute..|].
  destruct Hvalid as (h' & Hnew & H1 & H2 & H3); [by vm_compute..|].
  exists h'. split_and!; [exact Hnew|..].
  - etrans; [exact H1|by vm_compute].
  - etrans; [exact H2|by vm_compute].
  - etrans; [exact H3|by vm_compute].
Defined.

(** X12: after a successful construction the three array fields are new
    arrays (at locations the caller's heap does not have, so none is the
    container that was supplied) holding, element for element, what the
    iteration of the supplied values yields at construction time: [color]
    and [thresholdValues] are arrays whenever the construction succeeds, so
    their fields are copies of them; [limitValues] is stored as the array
    of its elements when it is an array and of its code points when it is a
    string.  Whatever is later written at any location of the caller's
    heap, the fields and the contents of their arrays stay the same. *)
Theorem stored_arrays_are_independent_copies
    (h : heap) (o : gmap string value) (this : value) (h' : heap) :
  allocated h (param o "color") = true →
  allocated h (param o "thresholdValues") = true →
  allocated h (param o "limitValues") = true →
  new_BlendingInformation o h = (Return this, h') →
  ∃ c t l xs ys zs,
    (read_prop h' this "color" = Some (VRef c)
     ∧ read_prop h' this "thresholdValues" = Some (VRef t)
     ∧ read_prop h' this "limitValues" = Some (VRef l))
    ∧ (is_array h (param o "color") = true
       ∧ elements_of h (param o "color") = Some xs
       ∧ h' !! c = Some (OArray xs))
    ∧ (is_array h (param o "thresholdValues") = true
       ∧ elements_of h (param o "thresholdValues") = Some ys
       ∧ h' !! t = Some (OArray ys))
    ∧ (elements_of h (param o "limitValues") = Some zs
       ∧ h' !! l = Some (OArray zs))
    ∧ (length h ≤ c ∧ length h ≤ t ∧ length h ≤ l
       ∧ param o "color" ≠ VRef c
       ∧ param o "thresholdValues" ≠ VRef t
       ∧ param o "limitValues" ≠ VRef l)
    ∧ ∀ l0 x, l0 < length h →
        let h'' := <[l0 := x]> h' in
        read_prop h'' this "color" = Some (VRef c)
        ∧ read_prop h'' this "thresholdValues" = Some (VRef t)
        ∧ read_prop h'' this "limitValues" = Some (VRef l)
        ∧ h'' !! c = Some (OArray xs)
        ∧ h'' !! t = Some (OArray ys)
        ∧ h'' !! l = Some (OArray zs).
Proof.
  intros Hc Ht Hl Hnew.
  apply new_BlendingInformation_Return in Hnew as
      (xs & ys & zs & Hca & Hxs & Hta & Hys & _ & _ & Hzs & -> & ->);
    [|done..].
  apply array_of_length_checks in Hca as (_ & Hca & _).
  apply array_of_length_checks in Hta as (_ & Hta & _).
  assert (∀ v k, allocated h v = true → v ≠ VRef (length h + k)) as Hfresh.
  { intros v k Hv ->. cbn in Hv. apply bool_decide_eq_true in Hv. lia. }
  exists (length h + 1), (length h + 2), (length h + 3), xs, ys, zs.
  split_and!; try done; try lia; try by apply Hfresh.
  - rewrite read_instance_field. unfold BlendingInformation_props.
    by repeat (rewrite ?lookup_insert_eq, ?lookup_insert_ne by done).
  - rewrite read_instance_field. unfold BlendingInformation_props.
    by repeat (rewrite ?lookup_insert_eq, ?lookup_insert_ne by done).
  - rewrite read_instance_field. unfold BlendingInformation_props.
    by repeat (rewrite ?lookup_insert_eq, ?lookup_insert_ne by done).
  - rewrite lookup_app_r by lia. by replace (length h + 1 - length h) with 1 by lia.
  - rewrite lookup_app_r by lia. by replace (length h + 2 - length h) with 2 by lia.
  - rewrite lookup_app_r by lia. by replace (length h + 3 - length h) with 3 by lia.
  - intros l0 x Hl0 h''. unfold h''.
    rewrite insert_app_l by done.
    rewrite !read_instance_field_at by apply length_insert.
    unfold BlendingInformation_props.
    rewrite !lookup_app_r by (rewrite length_insert; lia).
    rewrite length_insert.
    replace (length h + 1 - length h) with 1 by lia.
    replace (length h + 2 - length h) with 2 by lia.
    replace (length h + 3 - length h) with 3 by lia.
    split_and!; try done;
      by repeat (rewrite ?lookup_insert_eq, ?lookup_insert_ne by done).
Qed.

Lemma scenario3_color_is_a_copy :
  let h' := (new_BlendingInformation scenario3 scenario_heap).2 in
  ∃ c,
    read_prop h' (VRef 7) "color" = Some (VRef c)
    ∧ h' !! c = Some (OArray [num 255; num 0; num 0])
    ∧ VRef 0 ≠ VRef c
    ∧ ∀ x, (<[0 := x]> h') !! c = Some (OArray [num 255; num 0; num 0]).
Proof.
  intros h'.
  destruct (stored_arrays_are_independent_copies scenario_heap scenario3
              (VRef 7) h')
    as (c & t & l & xs & ys & zs & (Hfield & _) & (_ & Hxs & Hcopy) & _ & _
        & (_ & _ & _ & Hne & _) & Hframe);
    [by vm_compute..|].
  vm_compute in Hxs. injection Hxs as <-.
  exists c. split_and!; [done..|].
  intros x. by apply (Hframe 0 x); vm_compute; lia.
Defined.

(** ** Both constructors *)

(** C10: [null] for [color], [thresholdValues] or [limitValues] is a
    MissingFieldError of BlendingInformation (each reached when the fields
    before it are valid), whereas Channel, given [null] in any of its four
    fields and no [undefined], succeeds and its getters return [null]. *)
Theorem null_missing_for_BlendingInformation_accepted_by_Channel
    (h : heap) (o oc : gmap string value) :
  allocated h (param o "color") = true →
  allocated h (param o "thresholdValues") = true →
  allocated h (param o "limitValues") = true →
  param oc "opticalPathIdentifier" ≠ VUndefined →
  param oc "studyInstanceUID" ≠ VUndefined →
  param oc "seriesInstanceUID" ≠ VUndefined →
  param oc "sopInstanceUIDs" ≠ VUndefined →
  ((param o "color" = VNull →
    failure_kind (new_BlendingInformation o h).1 = Some MissingFieldError)
   ∧ (array_of_length h (param o "color") 3 = true →
      param o "thresholdValues" = VNull →
      failure_kind (new_BlendingInformation o h).1 = Some MissingFieldError)
   ∧ (array_of_length h (param o "color") 3 = true →
      array_of_length h (param o "thresholdValues") 2 = true →
      param o "limitValues" = VNull →
      failure_kind (new_BlendingInformation o h).1 = Some MissingFieldError))
  ∧ ∃ this h',
      new_Channel oc h = (Return this, h')
      ∧ (param oc "opticalPathIdentifier" = VNull →
         Channel_opticalPathIdentifier this h' = (Return VNull, h'))
      ∧ (param oc "studyInstanceUID" = VNull →
         Channel_studyInstanceUID this h' = (Return VNull, h'))
      ∧ (param oc "seriesInstanceUID" = VNull →
         Channel_seriesInstanceUID this h' = (Return VNull, h'))
      ∧ (param oc "sopInstanceUIDs" = VNull →
         Channel_sopInstanceUIDs this h' = (Return VNull, h')).
Proof.
  intros Hc Ht Hl H1 H2 H3 H4. split.
  - rewrite new_BlendingInformation_outcome by done.
    destruct (BlendingInformation_outcome_required h o) as (R1 & R2 & R3).
    split_and!.
    + intros E. rewrite R1; [done|by rewrite E].
    + intros ? E. rewrite R2; [done..|by rewrite E].
    + intros ?? E. rewrite R3; [done..|by rewrite E].
  - eexists _, _. split; [by apply new_Channel_present|].
    unfold Channel_opticalPathIdentifier, Channel_studyInstanceUID,
      Channel_seriesInstanceUID, Channel_sopInstanceUIDs.
    rewrite !Channel_getter_run.
    repeat (rewrite ?lookup_insert_eq, ?lookup_insert_ne by done).
    cbn [default from_option id].
    split_and!; by intros ->.
Qed.

Lemma null_scenario :
  failure_kind
    (new_BlendingInformation (blending_options (VRef 0) (VRef 1) VNull)
       scenario_heap).1
  = Some MissingFieldError
  ∧ ∃ this h',
      new_Channel (channel_options VNull (str "1.2.3") VNull VNull)
        scenario_heap
      = (Return this, h')
      ∧ Channel_opticalPathIdentifier this h' = (Return VNull, h')
      ∧ Channel_studyInstanceUID this h' = (Return (str "1.2.3"), h')
      ∧ Channel_sopInstanceUIDs this h' = (Return VNull, h').
Proof.
  destruct (null_missing_for_BlendingInformation_accepted_by_Channel
              scenario_heap
              (blending_options (VRef 0) (VRef 1) VNull)
              (channel_options VNull (str "1.2.3") VNull VNull))
    as [(_ & _ & Hl) (this & h' & Hnew & H1 & _ & _ & H4)];
    [by vm_compute..|].
  split; [by apply Hl; vm_compute|].
  exists this, h'. split_and!.
  - done.
  - by apply H1; vm_compute.
  - rewrite new_Channel_run in Hnew. injection Hnew as <- <-.
    by vm_compute.
  - by apply H4; vm_compute.
Defined.

Lemma first_failing_kind (h : heap) (o : gmap string value) (m : string) :
  first_failing h o blending_checks = Some m → is_Some (kind_of_message m).
Proof.
  unfold blending_checks, first_failing.
  repeat match goal with
         | |- (if ?c then _ else _) = _ → _ =>
             destruct c; [|intros [= <-]; vm_compute; by eexists]
         end.
  done.
Qed.

(** X13: a construction either returns an instance or raises an exception,
    and which of the two is decided by the checks.  When it returns,
    validation has passed and every field of the instance is set: for
    Channel the four supplied values, none [undefined]; for
    BlendingInformation no check of [blending_checks] fails, the three
    unchecked values are stored as given, [color] is a new three-element
    array, [thresholdValues] a new two-element array and [limitValues] a
    new array, of two elements when an array was supplied.  When it raises,
    a check has failed (for Channel a field is [undefined]; for
    BlendingInformation the exception is the message of the first failing
    check, or a [TypeError] when no check fails and [limitValues] cannot be
    iterated), the expression has no value, the exception carries a message
    and no reference, and the heap is the caller's heap with unreferenced
    objects behind it: every object of the caller is as it was, so nothing
    the caller holds leads to the abandoned instance. *)
Theorem construction_is_atomic (h : heap) (oc ob : gmap string value) :
  allocated h (param ob "color") = true →
  allocated h (param ob "thresholdValues") = true →
  allocated h (param ob "limitValues") = true →
  (∀ r h', new_Channel oc h = (r, h') →
     (∃ t, h' = h ++ t)
     ∧ match r with
       | Throw e =>
           (∃ m, e = Error m ∧ kind_of_message m = Some MissingFieldError)
           ∧ (param oc "opticalPathIdentifier" = VUndefined
              ∨ param oc "studyInstanceUID" = VUndefined
              ∨ param oc "seriesInstanceUID" = VUndefined
              ∨ param oc "sopInstanceUIDs" = VUndefined)
       | Return this =>
           this = VRef (length h)
           ∧ param oc "opticalPathIdentifier" ≠ VUndefined
           ∧ param oc "studyInstanceUID" ≠ VUndefined
           ∧ param oc "seriesInstanceUID" ≠ VUndefined
           ∧ param oc "sopInstanceUIDs" ≠ VUndefined
           ∧ Channel_opticalPathIdentifier this h'
             = (Return (param oc "opticalPathIdentifier"), h')
           ∧ Channel_studyInstanceUID this h'
             = (Return (param oc "studyInstanceUID"), h')
           ∧ Channel_seriesInstanceUID this h'
             = (Return (param oc "seriesInstanceUID"), h')
           ∧ Channel_sopInstanceUIDs this h'
             = (Return (param oc "sopInstanceUIDs"), h')
       end)
  ∧ (∀ r h', new_BlendingInformation ob h = (r, h') →
       (∃ t, h' = h ++ t)
       ∧ match r with
         | Throw e =>
             (e = TypeError
              ∧ first_failing h ob blending_checks = None
              ∧ elements_of h (param ob "limitValues") = None)
             ∨ ∃ m, e = Error m
                    ∧ first_failing h ob blending_checks = Some m
                    ∧ is_Some (kind_of_message m)
         | Return this =>
             this = VRef (length h)
             ∧ first_failing h ob blending_checks = None
             ∧ read_prop h' this "opticalPathIdentifier"
               = Some (param ob "opticalPathIdentifier")
             ∧ read_prop h' this "opacity" = Some (param ob "opacity")
             ∧ read_prop h' this "visible" = Some (param ob "visible")
             ∧ ∃ c t l,
                 read_prop h' this "color" = Some (VRef c)
                 ∧ read_prop h' this "thresholdValues" = Some (VRef t)
                 ∧ read_prop h' this "limitValues" = Some (VRef l)
                 ∧ array_of_length h' (VRef c) 3 = true
                 ∧ array_of_length h' (VRef t) 2 = true
                 ∧ is_array h' (VRef l) = true
                 ∧ (is_array h (param ob "limitValues") = true →
                    array_of_length h' (VRef l) 2 = true)
         end).
Proof.
  intros Hc Ht Hl. split.
  - intros r h' Hnew. split.
    { destruct (new_Channel_extends h oc) as [t Ht']. rewrite Hnew in Ht'. eauto. }
    destruct (Channel_missing_field_cases h oc) as [(m & Hm & Hk)|(H1 & H2 & H3 & H4)].
    + rewrite Hnew in Hm. cbn in Hm. subst r. split; [eauto|].
      destruct (strict_equals (param oc "opticalPathIdentifier") VUndefined)
        eqn:E1; [apply strict_equals_undefined in E1; tauto|].
      destruct (strict_equals (param oc "studyInstanceUID") VUndefined)
        eqn:E2; [apply strict_equals_undefined in E2; tauto|].
      destruct (strict_equals (param oc "seriesInstanceUID") VUndefined)
        eqn:E3; [apply strict_equals_undefined in E3; tauto|].
      destruct (strict_equals (param oc "sopInstanceUIDs") VUndefined)
        eqn:E4; [apply strict_equals_undefined in E4; tauto|].
      apply strict_equals_undefined_false in E1, E2, E3, E4.
      destruct (Channel_accessors_run h oc E1 E2 E3 E4) as (E & _).
      rewrite E in Hnew. done.
    + destruct (Channel_accessors_run h oc H1 H2 H3 H4) as (E & G1 & G2 & G3 & G4).
      rewrite E in Hnew. injection Hnew as <- <-. done.
  - intros r h' Hnew. split.
    { destruct (new_BlendingInformation_extends h ob) as [t Ht']; [done..|].
      rewrite Hnew in Ht'. eauto. }
    assert (∀ msg, r = Throw (Error msg)
                   ↔ first_failing h ob blending_checks = Some msg) as Hfirst.
    { intros msg. rewrite <-BlendingInformation_outcome_first_failing.
      rewrite <-new_BlendingInformation_outcome, Hnew by done. done. }
    destruct r as [this|[m|]].
    + destruct (BlendingInformation_instance h ob this h') as [-> Hfields];
        [done..|].
      split; [done|]. split; [|done].
      destruct (first_failing h ob blending_checks) as [msg|] eqn:E; [|done].
      by pose proof (proj2 (Hfirst msg) eq_refl).
    + right. exists m. assert (first_failing h ob blending_checks = Some m)
        as E by by apply Hfirst.
      split_and!; [done..|]. by eapply first_failing_kind.
    + left. split; [done|].
      assert ((BlendingInformation_outcome h ob).1 = Throw TypeError) as He.
      { rewrite <-new_BlendingInformation_outcome, Hnew by done. done. }
      split.
      * destruct (first_failing h ob blending_checks) as [msg|] eqn:E; [|done].
        by pose proof (proj2 (Hfirst msg) eq_refl).
      * revert He. unfold BlendingInformation_outcome.
        repeat match goal with
               | |- context [if ?c then _ else _] => destruct c; [done|]
               end.
        by destruct (elements_of h (param ob "limitValues")).
Qed.

(** Scenarios 1 to 4 of the specification. *)
Lemma construction_is_atomic_scenarios :
  (∃ t, new_Channel scenario2 scenario_heap
        = (Throw (Error "SOP Instance UIDs are required."), scenario_heap ++ t))
  ∧ (∃ t, new_BlendingInformation scenario4 scenario_heap
          = (Throw (Error "An RGB color triplet must be provided."),
             scenario_heap ++ t))
  ∧ (∃ t, new_Channel scenario1 scenario_heap
          = (Return (VRef 7), scenario_heap ++ t))
  ∧ (∃ t, new_BlendingInformation scenario3 scenario_heap
          = (Return (VRef 7), scenario_heap ++ t)).
Proof.
  destruct (construction_is_atomic scenario_heap scenario2 scenario4)
    as [HC HB]; [by vm_compute..|].
  destruct (construction_is_atomic scenario_heap scenario1 scenario3)
    as [HC' HB']; [by vm_compute..|].
  split_and!.
  - destruct (HC (new_Channel scenario2 scenario_heap).1
                (new_Channel scenario2 scenario_heap).2) as [[t Ht] _];
      [by vm_compute|].
    exists t. rewrite <-Ht. by vm_compute.
  - destruct (HB (new_BlendingInformation scenario4 scenario_heap).1
                (new_BlendingInformation scenario4 scenario_heap).2)
      as [[t Ht] _]; [by vm_compute|].
    exists t. rewrite <-Ht. by vm_compute.
  - destruct (HC' (new_Channel scenario1 scenario_heap).1
                (new_Channel scenario1 scenario_heap).2) as [[t Ht] _];
      [by vm_compute|].
    exists t. rewrite <-Ht. by vm_compute.
  - destruct (HB' (new_BlendingInformation scenario3 scenario_heap).1
                (new_BlendingInformation scenario3 scenario_heap).2)
      as [[t Ht] _]; [by vm_compute|].
    exists t. rewrite <-Ht. by vm_compute.
Defined.

(** ** The array check of [limitValues] *)

(** C1, at a string: with valid [color] and [thresholdValues], the string
    ["ab"] as [limitValues] is neither absent nor an array, and yet the
    construction succeeds, storing the array of its two characters: the
    check before the message "Limit values must be provided as an array."
    tests [thresholdValues]. *)
Theorem limitValues_string_is_accepted :
  let o := blending_options (VRef 0) (VRef 1) (str "ab") in
  array_of_length scenario_heap (param o "color") 3 = true
  ∧ array_of_length scenario_heap (param o "thresholdValues") 2 = true
  ∧ loose_equals_null (param o "limitValues") = false
  ∧ is_array scenario_heap (param o "limitValues") = false
  ∧ (new_BlendingInformation o scenario_heap).1 = Return (VRef 7)
  ∧ read_prop (new_BlendingInformation o scenario_heap).2 (VRef 7) "limitValues"
    = Some (VRef 10)
  ∧ (new_BlendingInformation o scenario_heap).2 !! 10
    = Some (OArray [str "a"; str "b"]).
Proof. by vm_compute. Qed.

(** The same at the plain object [{ length: 2 }]: no validation error is
    raised; the spread fails with a [TypeError]. *)
Lemma limitValues_array_like_object_is_not_rejected :
  let o := blending_options (VRef 0) (VRef 1) (VRef 6) in
  is_array scenario_heap (param o "limitValues") = false
  ∧ first_failing scenario_heap o blending_checks = None
  ∧ (new_BlendingInformation o scenario_heap).1 = Throw TypeError.
Proof. by vm_compute. Qed.

(** C6, at a string of one astral character: with valid [color] and
    [thresholdValues], the string U+1F600 as [limitValues] has [length] 2
    and passes the length check, the construction succeeds, and the stored
    [limitValues] is an array of one element. *)
Theorem limitValues_astral_string_breaks_length_invariant :
  let o := blending_options (VRef 0) (VRef 1) astral_string in
  array_of_length scenario_heap (param o "color") 3 = true
  ∧ array_of_length scenario_heap (param o "thresholdValues") 2 = true
  ∧ read_prop scenario_heap (param o "limitValues") "length" = Some (num 2)
  ∧ (new_BlendingInformation o scenario_heap).1 = Return (VRef 7)
  ∧ read_prop (new_BlendingInformation o scenario_heap).2 (VRef 7) "limitValues"
    = Some (VRef 10)
  ∧ (new_BlendingInformation o scenario_heap).2 !! 10
    = Some (OArray [astral_string])
  ∧ read_prop (new_BlendingInformation o scenario_heap).2 (VRef 10) "length"
    = Some (num 1).
Proof. by vm_compute. Qed.

(** C7, at a string: with valid [color] and [thresholdValues] the
    construction from the string ["ab"] as [limitValues] succeeds, and the
    stored [limitValues] is an array of two one-character strings.  No
    array was supplied: the field is not a copy that equals its input, it
    is an array where the input is a string. *)
Theorem limitValues_string_is_stored_as_an_array :
  let o := blending_options (VRef 0) (VRef 1) (str "ab") in
  let h' := (new_BlendingInformation o scenario_heap).2 in
  (new_BlendingInformation o scenario_heap).1 = Return (VRef 7)
  ∧ param o "limitValues" = str "ab"
  ∧ is_array scenario_heap (param o "limitValues") = false
  ∧ read_prop h' (VRef 7) "limitValues" = Some (VRef 10)
  ∧ is_array h' (VRef 10) = true
  ∧ h' !! 10 = Some (OArray [str "a"; str "b"])
  ∧ strict_equals (VRef 10) (param o "limitValues") = false.
Proof. by vm_compute. Qed.

(** C9, at a string of one astral character: every check passes and the
    construction returns, and the instance returned is not valid: its
    [limitValues] is an array of one element, not of two. *)
Theorem astral_string_instance_is_not_valid :
  let o := blending_options (VRef 0) (VRef 1) astral_string in
  let h' := (new_BlendingInformation o scenario_heap).2 in
  first_failing scenario_heap o blending_checks = None
  ∧ (new_BlendingInformation o scenario_heap).1 = Return (VRef 7)
  ∧ read_prop h' (VRef 7) "limitValues" = Some (VRef 10)
  ∧ array_of_length h' (VRef 10) 2 = false
  ∧ array_of_length h' (VRef 10) 1 = true.
Proof. by vm_compute. Qed.

(** ** What the shape checks do guarantee *)

(** X1: a supplied [color] that is not a three-element array, a supplied
    [thresholdValues] that is not a two-element array, and a supplied
    [limitValues] whose [length] is not 2 (an array of another length among
    them) each fail with a ShapeError, when the fields checked before are
    valid. *)
Theorem shape_errors (h : heap) (o : gmap string value) :
  allocated h (param o "color") = true →
  allocated h (param o "thresholdValues") = true →
  allocated h (param o "limitValues") = true →
  (loose_equals_null (param o "color") = false →
   array_of_length h (param o "color") 3 = false →
   failure_kind (new_BlendingInformation o h).1 = Some ShapeError)
  ∧ (array_of_length h (param o "color") 3 = true →
     loose_equals_null (param o "thresholdValues") = false →
     array_of_length h (param o "thresholdValues") 2 = false →
     failure_kind (new_BlendingInformation o h).1 = Some ShapeError)
  ∧ (array_of_length h (param o "color") 3 = true →
     array_of_length h (param o "thresholdValues") 2 = true →
     loose_equals_null (param o "limitValues") = false →
     length_is h (param o "limitValues") 2 = false →
     failure_kind (new_BlendingInformation o h).1 = Some ShapeError).
Proof.
  intros Hc Ht Hl. rewrite new_BlendingInformation_outcome by done.
  destruct (BlendingInformation_outcome_shape h o) as (S1 & S2 & _).
  split_and!; [done..|].
  unfold BlendingInformation_outcome.
  intros (-> & -> & -> & _)%array_of_length_checks
    (-> & -> & -> & _)%array_of_length_checks -> ->. done.
Qed.

Lemma shape_errors_scenario4 :
  failure_kind (new_BlendingInformation scenario4 scenario_heap).1
  = Some ShapeError.
Proof.
  refine (proj1 (shape_errors scenario_heap scenario4 _ _ _) _ _);
    by vm_compute.
Defined.

(** X2: with the other two fields valid, the length of a supplied array
    decides: three elements for [color] and two for [thresholdValues] and
    [limitValues] succeed, any other length is a ShapeError; and after a
    construction that was given an array as [limitValues] the stored arrays
    have three, two and two elements. *)
Theorem array_lengths_decide (h : heap) (o : gmap string value) :
  allocated h (param o "color") = true →
  allocated h (param o "thresholdValues") = true →
  allocated h (param o "limitValues") = true →
  is_array h (param o "color") = true →
  is_array h (param o "thresholdValues") = true →
  is_array h (param o "limitValues") = true →
  (array_of_length h (param o "color") 3 = true
   ∧ array_of_length h (param o "thresholdValues") 2 = true
   ∧ array_of_length h (param o "limitValues") 2 = true
   → (new_BlendingInformation o h).1 = Return (VRef (length h)))
  ∧ (array_of_length h (param o "color") 3 = false
     ∨ array_of_length h (param o "thresholdValues") 2 = false
     ∨ array_of_length h (param o "limitValues") 2 = false
     → failure_kind (new_BlendingInformation o h).1 = Some ShapeError)
  ∧ ∀ this h',
      new_BlendingInformation o h = (Return this, h') →
      ∃ c t l,
        read_prop h' this "color" = Some (VRef c)
        ∧ read_prop h' this "thresholdValues" = Some (VRef t)
        ∧ read_prop h' this "limitValues" = Some (VRef l)
        ∧ read_prop h' (VRef c) "length" = Some (num 3)
        ∧ read_prop h' (VRef t) "length" = Some (num 2)
        ∧ read_prop h' (VRef l) "length" = Some (num 2).
Proof.
  intros Hc Ht Hl Hca Hta Hla.
  destruct (BlendingInformation_outcome_shape h o) as (S1 & S2 & S3 & S4).
  split_and!.
  - intros (? & ? & ?). rewrite new_BlendingInformation_outcome by done. auto.
  - rewrite new_BlendingInformation_outcome by done.
    destruct (array_of_length h (param o "color") 3) eqn:E1;
      [|intros _; apply S1; [by eapply is_array_not_null|done]].
    destruct (array_of_length h (param o "thresholdValues") 2) eqn:E2;
      [|intros _; apply S2; [done|by eapply is_array_not_null|done]].
    intros [?|[?|?]]; [done..|]. by apply S3.
  - intros this h' Hnew.
    destruct (BlendingInformation_instance h o this h')
      as (_ & _ & _ & _ & c & t & l & Fc & Ft & Fl & Lc & Lt & _ & Ll);
      [done..|].
    specialize (Ll Hla).
    apply array_of_length_spec in Lc as (? & xs & [= <-] & Hxs & Nx).
    apply array_of_length_spec in Lt as (? & ys & [= <-] & Hys & Ny).
    apply array_of_length_spec in Ll as (? & zs & [= <-] & Hzs & Nz).
    exists c, t, l. cbn. by rewrite Hxs, Hys, Hzs, Nx, Ny, Nz.
Qed.

Lemma array_lengths_scenario3 :
  (new_BlendingInformation scenario3 scenario_heap).1 = Return (VRef 7).
Proof.
  refine (proj1 (array_lengths_decide scenario_heap scenario3 _ _ _ _ _ _) _);
    by vm_compute.
Defined.

(** ** Further properties of the constructors *)

Lemma allocated_app (h t : heap) (v : value) :
  allocated h v = true → allocated (h ++ t) v = true.
Proof.
  destruct v as [| | | | |l]; try done. cbn.
  rewrite !bool_decide_eq_true, length_app. lia.
Qed.

Lemma length_is_app (h t : heap) (v : value) (n : nat) :
  allocated h v = true → length_is (h ++ t) v n = length_is h v n.
Proof. intros Hv. unfold length_is. by rewrite read_prop_app. Qed.

Lemma array_of_length_alt (h : heap) (v : value) (n : nat) :
  array_of_length h v n = is_array h v && length_is h v n.
Proof.
  unfold array_of_length. destruct (is_array h v) eqn:Ha; [|done].
  destruct (is_array_elements _ _ Ha) as [xs Hxs].
  rewrite (length_is_array h v n xs), Hxs by done. cbn.
  apply bool_decide_ext. naive_solver.
Qed.

(** A case in which a check fails. *)
Ltac refuse_case :=
  cbn [negb andb fst];
  split_and!;
    [ split; [done | by intros [(? & ? & ? & ?) ?]]
    | split; [done | by intros [(? & ? & ? & ?) ?]]
    | done ].

(** X3: the exact condition of acceptance: [new BlendingInformation] returns
    an instance exactly when [color] is a three-element array,
    [thresholdValues] a two-element array, and [limitValues] is neither
    [null] nor [undefined], has [length] 2 and can be iterated (whether or
    not it is an array); it throws a [TypeError] exactly when all of this
    holds except that [limitValues] cannot be iterated. *)
Theorem BlendingInformation_accepts_iff (h : heap) (o : gmap string value) :
  allocated h (param o "color") = true →
  allocated h (param o "thresholdValues") = true →
  allocated h (param o "limitValues") = true →
  let checked :=
    array_of_length h (param o "color") 3 = true
    ∧ array_of_length h (param o "thresholdValues") 2 = true
    ∧ loose_equals_null (param o "limitValues") = false
    ∧ length_is h (param o "limitValues") 2 = true in
  ((new_BlendingInformation o h).1 = Return (VRef (length h))
   ↔ checked ∧ is_Some (elements_of h (param o "limitValues")))
  ∧ ((new_BlendingInformation o h).1 = Throw TypeError
     ↔ checked ∧ elements_of h (param o "limitValues") = None)
  ∧ ∀ this, (new_BlendingInformation o h).1 = Return this →
            this = VRef (length h).
Proof.
  intros Hc Ht Hl checked. unfold checked.
  rewrite new_BlendingInformation_outcome by done.
  rewrite !array_of_length_alt. unfold BlendingInformation_outcome.
  destruct (is_array h (param o "color")) eqn:Hca;
    [rewrite (is_array_not_null _ _ Hca)
    |destruct (loose_equals_null (param o "color")); refuse_case].
  destruct (length_is h (param o "color") 3); [|refuse_case].
  destruct (is_array h (param o "thresholdValues")) eqn:Hta;
    [rewrite (is_array_not_null _ _ Hta)
    |destruct (loose_equals_null (param o "thresholdValues")); refuse_case].
  destruct (length_is h (param o "thresholdValues") 2); [|refuse_case].
  destruct (loose_equals_null (param o "limitValues")); [refuse_case|].
  destruct (length_is h (param o "limitValues") 2); [|refuse_case].
  destruct (elements_of h (param o "limitValues")) as [zs|];
    cbn [negb andb fst]; split_and!.
  - split; [eauto 10|done].
  - split; [done|by intros [_ ?]].
  - by intros ? [= <-].
  - split; [done|by intros [_ [? ?]]].
  - done.
  - done.
Qed.

(** A string of two characters is accepted. *)
Lemma BlendingInformation_accepts_string :
  (new_BlendingInformation (blending_options (VRef 0) (VRef 1) (str "ab"))
     scenario_heap).1
  = Return (VRef 7).
Proof.
  refine (proj2 (proj1 (BlendingInformation_accepts_iff scenario_heap
                          (blending_options (VRef 0) (VRef 1) (str "ab"))
                          _ _ _)) _);
    [by vm_compute..|].
  split; [by vm_compute|by eexists].
Defined.

(** X4: the error of [new Channel] is that of the first field, in the order
    [opticalPathIdentifier], [studyInstanceUID], [seriesInstanceUID],
    [sopInstanceUIDs], that is [undefined]. *)
Theorem Channel_first_missing_field (h : heap) (o : gmap string value) :
  (param o "opticalPathIdentifier" = VUndefined →
   (new_Channel o h).1 = Throw (Error "Optical Path Identifier is required."))
  ∧ (param o "opticalPathIdentifier" ≠ VUndefined →
     param o "studyInstanceUID" = VUndefined →
     (new_Channel o h).1 = Throw (Error "Study Instance UID is required."))
  ∧ (param o "opticalPathIdentifier" ≠ VUndefined →
     param o "studyInstanceUID" ≠ VUndefined →
     param o "seriesInstanceUID" = VUndefined →
     (new_Channel o h).1 = Throw (Error "Series Instance UID is required."))
  ∧ (param o "opticalPathIdentifier" ≠ VUndefined →
     param o "studyInstanceUID" ≠ VUndefined →
     param o "seriesInstanceUID" ≠ VUndefined →
     param o "sopInstanceUIDs" = VUndefined →
     (new_Channel o h).1 = Throw (Error "SOP Instance UIDs are required.")).
Proof.
  rewrite new_Channel_run. unfold Channel_outcome.
  rewrite <-!strict_equals_undefined_false, <-!strict_equals_undefined.
  split_and!.
  - by intros ->.
  - by intros -> ->.
  - by intros -> -> ->.
  - by intros -> -> -> ->.
Qed.

(** A getter of a channel in a heap that has grown. *)
Lemma Channel_getter_run_app
    (h t : heap) (attrs : gmap string value) key :
  bind (get_prop (VRef (length h)) _channelAttrs) (λ a, get_prop a key)
    (h ++ OPlain (<[_channelAttrs := VRef (length h + 1)]> ∅)
         :: OPlain attrs :: t)
  = (Return (default VUndefined (attrs !! key)),
     h ++ OPlain (<[_channelAttrs := VRef (length h + 1)]> ∅)
         :: OPlain attrs :: t).
Proof.
  rewrite <-(Nat.add_0_r (length h)) at 1.
  unfold bind. erewrite get_prop_new by reflexivity.
  rewrite lookup_insert_eq. cbn [default from_option id].
  by erewrite get_prop_new by reflexivity.
Qed.

(** X5: [Channel] keeps the values it is given, it does not copy them: the
    getter of [sopInstanceUIDs] returns the caller's own array, so what the
    caller later writes into that array is what the channel's
    [sopInstanceUIDs] holds. *)
Theorem Channel_shares_sopInstanceUIDs
    (h : heap) (o : gmap string value) (l : loc) :
  param o "opticalPathIdentifier" ≠ VUndefined →
  param o "studyInstanceUID" ≠ VUndefined →
  param o "seriesInstanceUID" ≠ VUndefined →
  param o "sopInstanceUIDs" = VRef l →
  l < length h →
  ∃ this h',
    new_Channel o h = (Return this, h')
    ∧ ∀ x,
        let h'' := <[l := x]> h' in
        Channel_sopInstanceUIDs this h'' = (Return (VRef l), h'')
        ∧ h'' !! l = Some x.
Proof.
  intros H1 H2 H3 H4 Hl. eexists _, _.
  split; [apply new_Channel_present; try done; by rewrite H4|].
  intros x h''. unfold h''.
  rewrite insert_app_l by done. split.
  - unfold Channel_sopInstanceUIDs.
    rewrite <-(length_insert h l x).
    rewrite Channel_getter_run_app. by rewrite lookup_insert_eq, H4.
  - rewrite lookup_app_l by (by rewrite length_insert).
    by apply list_lookup_insert_eq.
Qed.

(** Scenario 1, after the caller has emptied its array of SOP instance
    UIDs. *)
Lemma Channel_shares_scenario1 :
  ∃ this h',
    new_Channel scenario1 scenario_heap = (Return this, h')
    ∧ Channel_sopInstanceUIDs this (<[3 := OArray []]> h')
      = (Return (VRef 3), <[3 := OArray []]> h')
    ∧ (<[3 := OArray []]> h') !! 3 = Some (OArray []).
Proof.
  destruct (Channel_shares_sopInstanceUIDs scenario_heap scenario1 3)
    as (this & h' & Hnew & Hshared); [by vm_compute..|vm_compute; lia|].
  exists this, h'. split; [done|]. apply Hshared.
Defined.

(** X6: nothing allocated later changes what the getters of a channel return;
    and a later construction of a channel, successful or not, only
    allocates. *)
Theorem Channel_getters_stable (h : heap) (o : gmap string value) :
  param o "opticalPathIdentifier" ≠ VUndefined →
  param o "studyInstanceUID" ≠ VUndefined →
  param o "seriesInstanceUID" ≠ VUndefined →
  param o "sopInstanceUIDs" ≠ VUndefined →
  let this := VRef (length h) in
  let h1 := (new_Channel o h).2 in
  (∀ t key g, (key, g) ∈ Channel_getters →
     g this (h1 ++ t) = (Return (param o key), h1 ++ t))
  ∧ ∀ o2 key g, (key, g) ∈ Channel_getters →
      g this (new_Channel o2 h1).2
      = (Return (param o key), (new_Channel o2 h1).2).
Proof.
  intros H1 H2 H3 H4 this h1.
  assert (∀ t key g, (key, g) ∈ Channel_getters →
            g this (h1 ++ t) = (Return (param o key), h1 ++ t)) as Hstable.
  { intros t key g Hg. unfold h1, this.
    rewrite new_Channel_present by done. cbn [snd].
    rewrite <-(assoc_L (++)). cbn [app].
    unfold Channel_getters in Hg.
    repeat (apply elem_of_cons in Hg as [[= -> ->]|Hg]);
      [..|by apply elem_of_nil in Hg].
    all: unfold Channel_opticalPathIdentifier, Channel_studyInstanceUID,
      Channel_seriesInstanceUID, Channel_sopInstanceUIDs.
    all: rewrite Channel_getter_run_app.
    all: by repeat (rewrite ?lookup_insert_eq, ?lookup_insert_ne by done). }
  split; [done|].
  intros o2 key g Hg. destruct (new_Channel_extends h1 o2) as [t ->]. eauto.
Qed.

Lemma Channel_getters_stable_scenario :
  Channel_opticalPathIdentifier (VRef 7)
    (new_Channel scenario2 (new_Channel scenario1 scenario_heap).2).2
  = (Return (str "Cy5"),
     (new_Channel scenario2 (new_Channel scenario1 scenario_heap).2).2).
Proof.
  refine (proj2 (Channel_getters_stable scenario_heap scenario1 _ _ _ _)
            scenario2 "opticalPathIdentifier" _ _);
    [by vm_compute..|].
  unfold Channel_getters. apply elem_of_cons. by left.
Defined.

(** X7: a getter never changes the heap, and on a receiver that lacks the
    symbol-keyed slot (any object the constructor of [Channel] has not
    initialised, a BlendingInformation instance for one) or that is [null]
    or [undefined] it throws a [TypeError]; it does not return
    [undefined]. *)
Theorem Channel_getter_without_slot (this : value) (h : heap) :
  Forall (λ kg : string * (value → js value),
            (kg.2 this h).2 = h
            ∧ (read_prop h this _channelAttrs = Some VUndefined
               ∨ read_prop h this _channelAttrs = None →
               kg.2 this h = (Throw TypeError, h)))
         Channel_getters.
Proof.
  unfold Channel_getters.
  repeat apply Forall_cons_2; [..|apply Forall_nil_2]; cbn [snd].
  all: unfold Channel_opticalPathIdentifier, Channel_studyInstanceUID,
    Channel_seriesInstanceUID, Channel_sopInstanceUIDs, bind, get_prop.
  all: destruct (read_prop h this _channelAttrs) as [a|]; [|by split; intros].
  all: split; [by destruct (read_prop h a _)|].
  all: by intros [[= ->]|?].
Qed.

(** X8: validation looks only at the objects the options refer to: with more
    objects in the heap, [new BlendingInformation] fails the same check
    and raises the same exception, or succeeds as well; [new Channel]
    does not look at the heap at all. *)
Theorem validation_ignores_other_objects
    (h t : heap) (o oc : gmap string value) :
  allocated h (param o "color") = true →
  allocated h (param o "thresholdValues") = true →
  allocated h (param o "limitValues") = true →
  first_failing (h ++ t) o blending_checks = first_failing h o blending_checks
  ∧ thrown (new_BlendingInformation o (h ++ t)).1
    = thrown (new_BlendingInformation o h).1
  ∧ ∀ h2, thrown (new_Channel oc h2).1 = thrown (new_Channel oc h).1.
Proof.
  intros Hc Ht Hl. split_and!.
  - unfold blending_checks, first_failing, check_passes.
    cbn [check_field check_what check_message].
    by rewrite !is_array_app, !length_is_app.
  - rewrite !new_BlendingInformation_outcome by auto using allocated_app.
    unfold BlendingInformation_outcome.
    rewrite !is_array_app, !length_is_app, !elements_of_app by done.
    repeat match goal with
           | |- context [if ?c then _ else _] => destruct c; [done|]
           end.
    by destruct (elements_of h (param o "limitValues")).
  - intros h2. rewrite !new_Channel_run. unfold Channel_outcome.
    by repeat destruct (strict_equals _ _).
Qed.

Lemma validation_ignores_scenario :
  thrown (new_BlendingInformation scenario4 (scenario_heap ++ nested_heap)).1
  = thrown (new_BlendingInformation scenario4 scenario_heap).1.
Proof.
  refine (proj1 (proj2 (validation_ignores_other_objects scenario_heap
                          nested_heap scenario4 scenario1 _ _ _)));
    by vm_compute.
Defined.

Lemma elem_of_array_fields (key : string) :
  key ∈ array_fields
  ↔ key = "color" ∨ key = "thresholdValues" ∨ key = "limitValues".
Proof.
  unfold array_fields. rewrite !elem_of_cons, elem_of_nil. tauto.
Qed.

(** The array field [key] of a completed instance and the array behind
    it. *)
Lemma BlendingInformation_array_field
    (h : heap) (o : gmap string value) (this : value) (h' : heap) key xs :
  allocated h (param o "color") = true →
  allocated h (param o "thresholdValues") = true →
  allocated h (param o "limitValues") = true →
  new_BlendingInformation o h = (Return this, h') →
  key ∈ array_fields →
  elements_of h (param o key) = Some xs →
  ∃ k, 1 ≤ k ≤ 3
       ∧ this = VRef (length h)
       ∧ length h' = length h + 4
       ∧ read_prop h' this key = Some (VRef (length h + k))
       ∧ h' !! (length h + k) = Some (OArray xs).
Proof.
  intros Hc Ht Hl Hnew Hkey Hxs.
  apply new_BlendingInformation_Return in Hnew as
      (xs' & ys' & zs' & _ & Hxs' & _ & Hys' & _ & _ & Hzs' & -> & ->);
    [|done..].
  rewrite read_instance_field. unfold BlendingInformation_props.
  apply elem_of_array_fields in Hkey as [-> | [-> | ->]].
  - exists 1. rewrite Hxs in Hxs'. injection Hxs' as <-.
    repeat (rewrite ?lookup_insert_eq, ?lookup_insert_ne by done).
    rewrite length_app, lookup_app_r by lia.
    replace (length h + 1 - length h) with 1 by lia.
    split_and!; try done; lia.
  - exists 2. rewrite Hxs in Hys'. injection Hys' as <-.
    repeat (rewrite ?lookup_insert_eq, ?lookup_insert_ne by done).
    rewrite length_app, lookup_app_r by lia.
    replace (length h + 2 - length h) with 2 by lia.
    split_and!; try done; lia.
  - exists 3. rewrite Hxs in Hzs'. injection Hzs' as <-.
    repeat (rewrite ?lookup_insert_eq, ?lookup_insert_ne by done).
    rewrite length_app, lookup_app_r by lia.
    replace (length h + 3 - length h) with 3 by lia.
    split_and!; try done; lia.
Qed.

(** X9: the copies are one level deep: an element that is a reference is the
    same reference in the copy, so what the caller later writes into the
    object it refers to is what the instance's array refers to. *)
Theorem copies_are_shallow
    (h : heap) (o : gmap string value) (this : value) (h' : heap)
    key xs (i : nat) (l0 : loc) :
  allocated h (param o "color") = true →
  allocated h (param o "thresholdValues") = true →
  allocated h (param o "limitValues") = true →
  new_BlendingInformation o h = (Return this, h') →
  key ∈ array_fields →
  elements_of h (param o key) = Some xs →
  xs !! i = Some (VRef l0) →
  l0 < length h →
  ∃ c,
    read_prop h' this key = Some (VRef c)
    ∧ h' !! c = Some (OArray xs)
    ∧ ∀ x,
        let h'' := <[l0 := x]> h' in
        read_prop h'' this key = Some (VRef c)
        ∧ h'' !! c = Some (OArray xs)
        ∧ h'' !! l0 = Some x.
Proof.
  intros Hc Ht Hl Hnew Hkey Hxs Hi Hl0.
  destruct (BlendingInformation_array_field h o this h' key xs)
    as (k & Hk & -> & Hlen & Hfield & Harr); [done..|].
  exists (length h + k). split_and!; [done..|].
  intros x h''. unfold h''. split_and!.
  - revert Hfield. cbn. rewrite list_lookup_insert_ne by lia.
    done.
  - by rewrite list_lookup_insert_ne by lia.
  - apply list_lookup_insert_eq. lia.
Qed.

Lemma copies_are_shallow_scenario :
  let h' := (new_BlendingInformation nested_options nested_heap).2 in
  ∃ c,
    read_prop h' (VRef 4) "color" = Some (VRef c)
    ∧ h' !! c = Some (OArray [VRef 0; num 0; num 0])
    ∧ (<[0 := OArray []]> h') !! c = Some (OArray [VRef 0; num 0; num 0])
    ∧ (<[0 := OArray []]> h') !! 0 = Some (OArray []).
Proof.
  intros h'.
  destruct (copies_are_shallow nested_heap nested_options (VRef 4) h'
              "color" [VRef 0; num 0; num 0] 0 0)
    as (c & Hfield & Harr & Hlater);
    [by vm_compute|by vm_compute|by vm_compute|by vm_compute
    |apply elem_of_array_fields; by left
    |by vm_compute|by vm_compute
    |vm_compute; lia
    |].
  exists c. split_and!; [done..| |]; by apply (Hlater (OArray [])).
Defined.

Lemma length_is_string (h : heap) (s : jsstring) (n : nat) :
  length_is h (VString s) n = bool_decide (length s = n).
Proof. unfold length_is. cbn. apply number_of_nat_equals. Qed.

(** X10: a string as [limitValues], with valid [color] and [thresholdValues]:
    it is rejected, with the message of the length check, unless it has
    exactly two code units; a string of two code units is accepted and the
    stored [limitValues] is the array of its code points, one element when
    the two units are a surrogate pair and two otherwise. *)
Theorem string_limitValues
    (h : heap) (o : gmap string value) (s : jsstring) :
  allocated h (param o "color") = true →
  allocated h (param o "thresholdValues") = true →
  array_of_length h (param o "color") 3 = true →
  array_of_length h (param o "thresholdValues") 2 = true →
  param o "limitValues" = VString s →
  (length s ≠ 2 →
   (new_BlendingInformation o h).1
   = Throw (Error "Two limit values must be provided."))
  ∧ (length s = 2 →
     ∃ h',
       new_BlendingInformation o h = (Return (VRef (length h)), h')
       ∧ read_prop h' (VRef (length h)) "limitValues"
         = Some (VRef (length h + 3))
       ∧ h' !! (length h + 3) = Some (OArray (VString <$> code_points s)))
  ∧ (∀ c d, s = [c; d] →
       length (code_points s)
       = if is_high_surrogate c && is_low_surrogate d then 1 else 2).
Proof.
  intros Hc Ht Hca Hta Hs.
  assert (allocated h (param o "limitValues") = true) as Hl by by rewrite Hs.
  rewrite new_BlendingInformation_run by done.
  unfold BlendingInformation_outcome.
  apply array_of_length_checks in Hca as (-> & -> & -> & xs & -> & _).
  apply array_of_length_checks in Hta as (-> & -> & -> & ys & -> & _).
  rewrite Hs, length_is_string. cbn [negb loose_equals_null elements_of].
  split_and!.
  - intros Hn. by rewrite bool_decide_eq_false_2.
  - intros Hn. rewrite bool_decide_eq_true_2 by done. cbn [negb fst snd].
    eexists. split; [done|].
    rewrite read_instance_field.
    split; [by repeat (rewrite ?lookup_insert_eq, ?lookup_insert_ne by done)|].
    rewrite lookup_app_r by lia.
    by replace (length h + 3 - length h) with 3 by lia.
  - intros c d ->. cbn. by destruct (_ && _).
Qed.

Lemma string_limitValues_scenario :
  ∃ h',
    new_BlendingInformation (blending_options (VRef 0) (VRef 1) astral_string)
      scenario_heap
    = (Return (VRef 7), h')
    ∧ h' !! 10 = Some (OArray [astral_string]).
Proof.
  destruct (string_limitValues scenario_heap
              (blending_options (VRef 0) (VRef 1) astral_string)
              [0xD83D; 0xDE00]%N)
    as (_ & Haccepted & _); [by vm_compute..|].
  destruct Haccepted as (h' & Hnew & _ & Hstored); [done|].
  by exists h'.
Defined.

(** The location of an array field of a completed instance. *)
Lemma BlendingInformation_array_field_loc
    (h : heap) (o : gmap string value) (this : value) (h' : heap) key :
  allocated h (param o "color") = true →
  allocated h (param o "thresholdValues") = true →
  allocated h (param o "limitValues") = true →
  new_BlendingInformation o h = (Return this, h') →
  key ∈ array_fields →
  ∃ k, 1 ≤ k ≤ 3
       ∧ this = VRef (length h)
       ∧ length h' = length h + 4
       ∧ read_prop h' this key = Some (VRef (length h + k)).
Proof.
  intros Hc Ht Hl Hnew Hkey.
  pose proof Hnew as Hinv.
  apply new_BlendingInformation_Return in Hinv as
      (xs & ys & zs & _ & Hxs & _ & Hys & _ & _ & Hzs & _); [|done..].
  assert (is_Some (elements_of h (param o key))) as [es Hes].
  { apply elem_of_array_fields in Hkey as [-> | [-> | ->]]; eauto. }
  destruct (BlendingInformation_array_field h o this h' key es)
    as (k & ? & ? & ? & ? & _); [done..|].
  by exists k.
Qed.

(** X11: instances do not interfere: a later construction, successful or not,
    and whatever it is given (the arrays of an earlier instance among it),
    changes no field of the earlier instance and no object that existed;
    the instance it returns is another object, and none of its array
    fields is an array of the earlier instance. *)
Theorem BlendingInformation_instances_independent
    (h : heap) (o o2 : gmap string value)
    (this : value) (h1 : heap) (r : outcome value) (h2 : heap) :
  allocated h (param o "color") = true →
  allocated h (param o "thresholdValues") = true →
  allocated h (param o "limitValues") = true →
  allocated h1 (param o2 "color") = true →
  allocated h1 (param o2 "thresholdValues") = true →
  allocated h1 (param o2 "limitValues") = true →
  new_BlendingInformation o h = (Return this, h1) →
  new_BlendingInformation o2 h1 = (r, h2) →
  (∀ key, read_prop h2 this key = read_prop h1 this key)
  ∧ (∀ l x, h1 !! l = Some x → h2 !! l = Some x)
  ∧ ∀ this2, r = Return this2 →
      this2 ≠ this
      ∧ ∀ key key2 c c2,
          key ∈ array_fields → key2 ∈ array_fields →
          read_prop h1 this key = Some (VRef c) →
          read_prop h2 this2 key2 = Some (VRef c2) →
          c ≠ c2.
Proof.
  intros Hc Ht Hl Hc2 Ht2 Hl2 Hnew Hnew2.
  destruct (new_BlendingInformation_extends h1 o2) as [t Hext]; [done..|].
  rewrite Hnew2 in Hext. cbn in Hext.
  destruct (BlendingInformation_array_field_loc h o this h1 "color")
    as (_ & _ & Hthis & Hlen & _);
    [done..|apply elem_of_array_fields; by left|].
  split_and!.
  - intros key. subst h2 this. apply read_prop_app. cbn.
    apply bool_decide_eq_true. lia.
  - intros l x Hx. subst h2. by apply lookup_app_l_Some.
  - intros this2 ->. split.
    + destruct (BlendingInformation_array_field_loc h1 o2 this2 h2 "color")
        as (_ & _ & -> & _); [done..|apply elem_of_array_fields; by left|].
      subst this. intros [=]. lia.
    + intros key key2 c c2 Hk Hk2 Hf Hf2.
      destruct (BlendingInformation_array_field_loc h o this h1 key)
        as (k & ? & _ & _ & Hf'); [done..|].
      destruct (BlendingInformation_array_field_loc h1 o2 this2 h2 key2)
        as (k2 & ? & _ & _ & Hf2'); [done..|].
      rewrite Hf in Hf'. rewrite Hf2 in Hf2'.
      injection Hf' as ->. injection Hf2' as ->. lia.
Qed.

(** A second instance built from the arrays of the first. *)
Lemma BlendingInformation_instances_scenario :
  let h1 := (new_BlendingInformation scenario3 scenario_heap).2 in
  let o2 := blending_options (VRef 8) (VRef 9) (VRef 10) in
  let h2 := (new_BlendingInformation o2 h1).2 in
  (new_BlendingInformation o2 h1).1 = Return (VRef 11)
  ∧ read_prop h2 (VRef 7) "color" = Some (VRef 8)
  ∧ read_prop h2 (VRef 11) "color" = Some (VRef 12)
  ∧ h2 !! 8 = Some (OArray [num 255; num 0; num 0]).
Proof.
  intros h1 o2 h2.
  destruct (BlendingInformation_instances_independent scenario_heap scenario3
              o2 (VRef 7) h1 (Return (VRef 11)) h2)
    as (Hfields & Hobjects & _); [by vm_compute..|].
  split_and!.
  - by vm_compute.
  - rewrite Hfields. by vm_compute.
  - by vm_compute.
  - apply Hobjects. by vm_compute.
Defined.
